(** * pytest-benchmark: the Elasticsearch storage adapter

    A shallow embedding of [src/pytest_benchmark/elasticsearch_storage.py]
    (class [ElasticsearchStorage]) and the properties of its public
    operations [save], [query], [load] and [load_benchmarks].

    Layout:
    - [Py]: the Python values the adapter handles (JSON-like documents),
      exceptions, and the builtins the source relies on (subscripting,
      [str()]/[repr()], truthiness, [dict] item assignment);
    - [Strptime]: [datetime.datetime.strptime] for the one format string
      the adapter uses, and the ordering of naive datetimes;
    - [Sorting]: [list.sort(key=...)];
    - section [Storage]: the class itself, over an arbitrary search engine;
    - [MemEngine] and [RejectingEngine]: two small engines to run it against;
    - the lemmas on dictionaries, grouping and sorting, and the properties
      of the operations, each under the claim it settles. *)

From Stdlib Require Import List String Ascii ZArith Bool Lia.
From Stdlib Require Import Sorted Permutation DecimalString.
Import ListNotations.
Local Open Scope string_scope.
Set Warnings "-register-all".

(* ------------------------------------------------------------------ *)
(** ** Python values, exceptions and builtins *)

Module Py.

(** Documents are JSON-like.  A [str] is a sequence of characters with
    code points below 256; an [int] is unbounded; a [float] is carried by
    its [repr] text, which identifies it; a [dict] has [str] keys and
    keeps its insertion order. *)
Inductive value : Type :=
| VNone
| VBool (b : bool)
| VInt (n : Z)
| VFloat (lit : string)
| VStr (s : string)
| VList (l : list value)
| VTuple (l : list value)
| VDict (d : list (string * value)).

Definition dict := list (string * value).

(** Exception classes.  The first six are the ones that the adapter and
    the builtins it calls raise themselves; [TransportError] stands for
    the client library's family of HTTP and connection errors.  Any other
    class is [Subclass name base], the class [name] declared with the base
    class [base], down to the built-in root [Exception]. *)
Inductive exn_class : Type :=
| ImportError
| KeyError
| TypeError
| ValueError
| AttributeError
| TransportError
| Exception
| Subclass (name : string) (base : exn_class).

Record exn : Type := Exn { exn_cls : exn_class; exn_args : list value }.

(** A computation that may raise. *)
Inductive result (A : Type) : Type :=
| Ok (a : A)
| Raise (e : exn).
Arguments Ok {A} a.
Arguments Raise {A} e.

Definition rbind {A B} (m : result A) (f : A -> result B) : result B :=
  match m with
  | Ok a => f a
  | Raise e => Raise e
  end.

Declare Scope py_scope.
Delimit Scope py_scope with py.
Notation "x <- m ;; k" := (rbind m (fun x => k))
  (at level 61, m at next level, right associativity) : py_scope.
Local Open Scope py_scope.

(** *** dict operations *)

Fixpoint getitem (d : dict) (k : string) : option value :=
  match d with
  | [] => None
  | (k', v) :: d' => if String.eqb k' k then Some v else getitem d' k
  end.

(** [d[k] = v]: an existing key keeps its position, a new key goes last. *)
Fixpoint setitem (d : dict) (k : string) (v : value) : dict :=
  match d with
  | [] => [(k, v)]
  | (k', v') :: d' =>
      if String.eqb k' k then (k', v) :: d' else (k', v') :: setitem d' k v
  end.

Definition contains (d : dict) (k : string) : bool :=
  match getitem d k with Some _ => true | None => false end.

(** [v[k]] for a [str] subscript [k]: only a dict accepts it. *)
Definition subscript (v : value) (k : string) : result value :=
  match v with
  | VDict d =>
      match getitem d k with
      | Some x => Ok x
      | None => Raise (Exn KeyError [VStr k])
      end
  | _ => Raise (Exn TypeError [])
  end.

(** [v[k1]...[kn]] when every step finds its key. *)
Fixpoint path (v : value) (ks : list string) : option value :=
  match ks with
  | [] => Some v
  | k :: ks' =>
      match v with
      | VDict d =>
          match getitem d k with
          | Some x => path x ks'
          | None => None
          end
      | _ => None
      end
  end.

(** [for x in v]: the items a loop over [v] visits. *)
Definition iterate (v : value) : result (list value) :=
  match v with
  | VList l | VTuple l => Ok l
  | VDict d => Ok (map (fun kv => VStr (fst kv)) d)
  | VStr s => Ok (map (fun c => VStr (String c "")) (list_ascii_of_string s))
  | _ => Raise (Exn TypeError [])
  end.

(** *** [repr] and [str] *)

Definition dquote : ascii := ascii_of_nat 34.
Definition squote : ascii := ascii_of_nat 39.
Definition backslash : ascii := ascii_of_nat 92.

Definition hex_digit (n : nat) : ascii :=
  nth n (list_ascii_of_string "0123456789abcdef") "0"%char.

Definition has_char (c : ascii) (s : string) : bool :=
  existsb (Ascii.eqb c) (list_ascii_of_string s).

(** One character of a [str] inside its [repr], quoted with [q]. *)
Definition repr_char (q c : ascii) : string :=
  let n := nat_of_ascii c in
  if Ascii.eqb c backslash then String backslash (String backslash "")
  else if Ascii.eqb c q then String backslash (String q "")
  else if Nat.eqb n 9 then String backslash "t"
  else if Nat.eqb n 10 then String backslash "n"
  else if Nat.eqb n 13 then String backslash "r"
  else if (Nat.ltb n 32 || (Nat.leb 127 n && Nat.leb n 160) || Nat.eqb n 173)%bool
       then String backslash
              (String "x" (String (hex_digit (n / 16)) (String (hex_digit (n mod 16)) "")))
  else String c "".

Definition repr_str (s : string) : string :=
  let q := if (has_char squote s && negb (has_char dquote s))%bool
           then dquote else squote in
  String q (concat "" (map (repr_char q) (list_ascii_of_string s)) ++ String q "").

Definition string_of_Z (n : Z) : string :=
  NilZero.string_of_int (Z.to_int n).

Fixpoint py_repr (v : value) : string :=
  match v with
  | VNone => "None"
  | VBool true => "True"
  | VBool false => "False"
  | VInt n => string_of_Z n
  | VFloat lit => lit
  | VStr s => repr_str s
  | VList l => "[" ++ concat ", " (map py_repr l) ++ "]"
  | VTuple l =>
      match l with
      | [x] => "(" ++ py_repr x ++ ",)"
      | _ => "(" ++ concat ", " (map py_repr l) ++ ")"
      end
  | VDict d =>
      "{" ++ concat ", "
               (map (fun kv => match kv with
                               | (k, x) => repr_str k ++ ": " ++ py_repr x
                               end) d) ++ "}"
  end.

(** [str(v)], which is what the [%s] conversion applies. *)
Definition py_str (v : value) : string :=
  match v with
  | VStr s => s
  | _ => py_repr v
  end.

(** [bool(v)], which is what [if v:] tests. *)
Definition truthy (v : value) : bool :=
  match v with
  | VNone => false
  | VBool b => b
  | VInt n => negb (Z.eqb n 0)
  | VFloat lit => negb (String.eqb lit "0.0" || String.eqb lit "-0.0")
  | VStr s => negb (String.eqb s "")
  | VList l | VTuple l => match l with [] => false | _ => true end
  | VDict d => match d with [] => false | _ => true end
  end.

End Py.
Import Py.
Local Open Scope py_scope.

(* ------------------------------------------------------------------ *)
(** ** [datetime.datetime.strptime(s, "%Y-%m-%dT%H:%M:%S.%f")] *)

Module Strptime.

(** The standard library turns a format into a regular expression and
    matches it, backtracking, at the start of the data.  The fragment of
    regular expressions that this format needs has no repetition. *)
Inductive regex : Type :=
| Chr (p : ascii -> bool)
| Eps
| Seq (r1 r2 : regex)
| Alt (r1 r2 : regex)
| Group (name : string) (r : regex).

(** Backtracking match of [r] at the start of [s]: alternatives are tried
    from left to right, [k] is what remains to be matched, and a named
    group records the text it consumed. *)
Fixpoint rmatch {R : Type} (r : regex) (s : string) (caps : list (string * string))
         (k : string -> list (string * string) -> option R) : option R :=
  match r with
  | Chr p =>
      match s with
      | String c s' => if p c then k s' caps else None
      | EmptyString => None
      end
  | Eps => k s caps
  | Seq r1 r2 => rmatch r1 s caps (fun s' caps' => rmatch r2 s' caps' k)
  | Alt r1 r2 =>
      match rmatch r1 s caps k with
      | Some x => Some x
      | None => rmatch r2 s caps k
      end
  | Group name r1 =>
      rmatch r1 s caps
        (fun s' caps' =>
           k s' ((name, substring 0 (String.length s - String.length s') s) :: caps'))
  end.

Definition in_range (lo hi : string) (c : ascii) : bool :=
  match lo, hi with
  | String a _, String b _ =>
      (Nat.leb (nat_of_ascii a) (nat_of_ascii c) && Nat.leb (nat_of_ascii c) (nat_of_ascii b))%bool
  | _, _ => false
  end.

Definition rng (lo hi : string) : regex := Chr (in_range lo hi).
Definition digit : regex := rng "0" "9".

Definition lower (c : ascii) : ascii :=
  if in_range "A" "Z" c then ascii_of_nat (nat_of_ascii c + 32) else c.

(** A literal character of the format; the match ignores case. *)
Definition lit (c : string) : regex :=
  match c with
  | String a _ => Chr (fun x => Ascii.eqb (lower x) (lower a))
  | EmptyString => Eps
  end.

Definition opt (r : regex) : regex := Alt r Eps.

Fixpoint seqs (rs : list regex) : regex :=
  match rs with
  | [] => Eps
  | [r] => r
  | r :: rs' => Seq r (seqs rs')
  end.

Fixpoint alts (rs : list regex) : regex :=
  match rs with
  | [] => Chr (fun _ => false)
  | [r] => r
  | r :: rs' => Alt r (alts rs')
  end.

(** The directives, as the standard library's table has them. *)
Definition re_Y : regex := seqs [digit; digit; digit; digit].
Definition re_m : regex :=
  alts [Seq (lit "1") (rng "0" "2"); Seq (lit "0") (rng "1" "9"); rng "1" "9"].
Definition re_d : regex :=
  alts [Seq (lit "3") (rng "0" "1"); Seq (rng "1" "2") digit;
        Seq (lit "0") (rng "1" "9"); rng "1" "9"; Seq (lit " ") (rng "1" "9")].
Definition re_H : regex :=
  alts [Seq (lit "2") (rng "0" "3"); Seq (rng "0" "1") digit; digit].
Definition re_M : regex := alts [Seq (rng "0" "5") digit; digit].
Definition re_S : regex :=
  alts [Seq (lit "6") (rng "0" "1"); Seq (rng "0" "5") digit; digit].
(** [[0-9]{1,6}], greedy. *)
Definition re_f : regex :=
  Seq digit (opt (Seq digit (opt (Seq digit (opt (Seq digit (opt (Seq digit (opt digit))))))))).

(** ["%Y-%m-%dT%H:%M:%S.%f"] *)
Definition format_regex : regex :=
  seqs [Group "Y" re_Y; lit "-"; Group "m" re_m; lit "-"; Group "d" re_d; lit "T";
        Group "H" re_H; lit ":"; Group "M" re_M; lit ":"; Group "S" re_S; lit ".";
        Group "f" re_f].

Fixpoint cap (caps : list (string * string)) (name : string) : string :=
  match caps with
  | [] => ""
  | (n, s) :: caps' => if String.eqb n name then s else cap caps' name
  end.

(** [int(s)] on the text of a group: decimal digits, blanks ignored. *)
Definition int_of (s : string) : Z :=
  fold_left (fun acc c =>
               if in_range "0" "9" c
               then (10 * acc + Z.of_nat (nat_of_ascii c - 48))%Z
               else acc)
            (list_ascii_of_string s) 0%Z.

Fixpoint zeros (n : nat) : string :=
  match n with
  | O => ""
  | S n' => String "0" (zeros n')
  end.

(** A naive [datetime]. *)
Record datetime : Type := Datetime {
  year : Z; month : Z; day : Z;
  hour : Z; minute : Z; second : Z; microsecond : Z
}.

Definition is_leap (y : Z) : bool :=
  ((y mod 4 =? 0) && (negb (y mod 100 =? 0) || (y mod 400 =? 0)))%Z%bool.

Definition days_in_month (y m : Z) : Z :=
  if (m =? 2)%Z then (if is_leap y then 29 else 28)%Z
  else if ((m =? 4) || (m =? 6) || (m =? 9) || (m =? 11))%Z%bool then 30%Z
  else 31%Z.

(** The [datetime] constructor's range checks. *)
Definition valid (dt : datetime) : bool :=
  ((1 <=? year dt) && (year dt <=? 9999) &&
   (1 <=? month dt) && (month dt <=? 12) &&
   (1 <=? day dt) && (day dt <=? days_in_month (year dt) (month dt)) &&
   (0 <=? hour dt) && (hour dt <=? 23) &&
   (0 <=? minute dt) && (minute dt <=? 59) &&
   (0 <=? second dt) && (second dt <=? 59) &&
   (0 <=? microsecond dt) && (microsecond dt <=? 999999))%Z%bool.

(** The regular expression matches at the start of [s] and nothing is left
    over: [s] has the shape the format asks for. *)
Definition scan (s : string) : option (string * list (string * string)) :=
  rmatch format_regex s [] (fun rest caps => Some (rest, caps)).

Definition matches_format (s : string) : bool :=
  match scan s with
  | Some (EmptyString, _) => true
  | _ => false
  end.

Definition of_groups (caps : list (string * string)) : datetime :=
  let f := cap caps "f" in
  {| year := int_of (cap caps "Y");
     month := int_of (cap caps "m");
     day := int_of (cap caps "d");
     hour := int_of (cap caps "H");
     minute := int_of (cap caps "M");
     second := int_of (cap caps "S");
     microsecond := int_of (f ++ zeros (6 - String.length f)) |}.

(** [strptime]: a [TypeError] when the data is not a [str]; a [ValueError]
    when it does not match the format, when text is left unconverted, or
    when the fields are not a date and time of the calendar.  The message
    texts are not modelled. *)
Definition strptime (data_string : value) : result datetime :=
  match data_string with
  | VStr s =>
      match scan s with
      | None => Raise (Exn ValueError [])
      | Some (String _ _, _) => Raise (Exn ValueError [])
      | Some (EmptyString, caps) =>
          let dt := of_groups caps in
          if valid dt then Ok dt else Raise (Exn ValueError [])
      end
  | _ => Raise (Exn TypeError [])
  end.

(** Naive datetimes compare field by field, most significant first. *)
Definition fields (dt : datetime) : list Z :=
  [year dt; month dt; day dt; hour dt; minute dt; second dt; microsecond dt].

Fixpoint lex_ltb (a b : list Z) : bool :=
  match a, b with
  | x :: a', y :: b' =>
      if (x <? y)%Z then true else if (y <? x)%Z then false else lex_ltb a' b'
  | [], _ :: _ => true
  | _, [] => false
  end.

Definition dt_ltb (a b : datetime) : bool := lex_ltb (fields a) (fields b).

(** [a <= b], as the negation of [b < a]. *)
Definition dt_le (a b : datetime) : Prop := dt_ltb b a = false.

End Strptime.

(* ------------------------------------------------------------------ *)
(** ** [list.sort(key=...)] *)

Module Sorting.
Section Sort.
Context {A K : Type}.
Variable ltb : K -> K -> bool.

(** The key function runs once per item, in list order, before any
    comparison; the first exception it raises ends the sort. *)
Fixpoint decorate (key : A -> result K) (l : list A) : result (list (K * A)) :=
  match l with
  | [] => Ok []
  | x :: l' =>
      k <- key x ;;
      kl <- decorate key l' ;;
      Ok ((k, x) :: kl)
  end.

(** The sort is stable: of two items with equal keys, the one that came
    first stays first.  [insert x l] puts [x] in front of the first item
    whose key is not below the key of [x]. *)
Fixpoint insert (x : K * A) (l : list (K * A)) : list (K * A) :=
  match l with
  | [] => [x]
  | y :: l' => if ltb (fst y) (fst x) then y :: insert x l' else x :: y :: l'
  end.

Definition sort_decorated (l : list (K * A)) : list (K * A) :=
  fold_right insert [] l.

Definition list_sort (key : A -> result K) (l : list A) : result (list A) :=
  kl <- decorate key l ;;
  Ok (map snd (sort_decorated kl)).

(** [a <= b] for keys, as the negation of [b < a], and for decorated
    items. *)
Definition key_le (a b : K) : Prop := ltb b a = false.

Definition item_le (p q : K * A) : Prop := key_le (fst p) (fst q).

(** [k] is neither below nor above [t]. *)
Definition level (t k : K) : bool := (negb (ltb t k) && negb (ltb k t))%bool.
End Sort.
End Sorting.

(* ------------------------------------------------------------------ *)
(** ** The search engine and its client *)

(** The calls the adapter makes on the client. *)
Inductive api_call : Type :=
| Search (index doc_type body : value)
| Index (index doc_type body id : value)
| IndicesCreate (index body : value).

(** What comes back: an HTTP answer, or no answer at all (the exception the
    client raises once it has given up on the connection). *)
Inductive reply : Type :=
| Status (code : Z) (body : value)
| Unreachable (e : exn).

(** A call together with the status codes its [ignore] argument lists. *)
Record request : Type := Request { req_call : api_call; req_ignore : list Z }.

(** What iterating a generator to its end gives: the items it yielded, and
    the exception that ended it if one did. *)
Inductive outcome (A : Type) : Type :=
| Done (ys : list A)
| Broke (ys : list A) (e : exn).
Arguments Done {A} ys.
Arguments Broke {A} ys e.

Definition yielded {A} (o : outcome A) : list A :=
  match o with
  | Done ys | Broke ys _ => ys
  end.

Definition yield {A} (y : A) (o : outcome A) : outcome A :=
  match o with
  | Done ys => Done (y :: ys)
  | Broke ys e => Broke (y :: ys) e
  end.

(** What [except ImportError] catches: [ImportError] and every class that
    has it among its bases, such as [ModuleNotFoundError]. *)
Fixpoint is_import_error (c : exn_class) : bool :=
  match c with
  | ImportError => true
  | Subclass _ base => is_import_error base
  | _ => false
  end.

(** [v[p1]...[pn][k] = x], seen from [v]: the innermost dict is updated in
    place and every dict on the way still holds it. *)
Fixpoint assign_in (v : value) (path : list string) (k : string) (x : value)
  : result value :=
  match path with
  | [] =>
      match v with
      | VDict d => Ok (VDict (setitem d k x))
      | _ => Raise (Exn TypeError [])
      end
  | p :: path' =>
      inner <- subscript v p ;;
      inner' <- assign_in inner path' k x ;;
      match v with
      | VDict d => Ok (VDict (setitem d p inner'))
      | _ => Raise (Exn TypeError [])
      end
  end.

(** The index mapping that [_create_index] sends. *)
Definition mapping : value :=
  VDict [
    ("mappings", VDict [
      ("benchmark", VDict [
        ("properties", VDict [
          ("commit_info", VDict [
            ("properties", VDict [
              ("dirty", VDict [("type", VStr "boolean")]);
              ("id", VDict [("type", VStr "string"); ("index", VStr "not_analyzed")]);
              ("project", VDict [("type", VStr "string"); ("index", VStr "not_analyzed")])])]);
          ("datetime", VDict [("type", VStr "date"); ("format", VStr "strict_date_optional_time||epoch_millis")]);
          ("name", VDict [("type", VStr "string"); ("index", VStr "not_analyzed")]);
          ("fullname", VDict [("type", VStr "string"); ("index", VStr "not_analyzed")]);
          ("version", VDict [("type", VStr "string"); ("index", VStr "not_analyzed")]);
          ("machine_info", VDict [
            ("properties", VDict [
              ("machine", VDict [("type", VStr "string"); ("index", VStr "not_analyzed")]);
              ("node", VDict [("type", VStr "string"); ("index", VStr "not_analyzed")]);
              ("processor", VDict [("type", VStr "string"); ("index", VStr "not_analyzed")]);
              ("python_build", VDict [("type", VStr "string"); ("index", VStr "not_analyzed")]);
              ("python_compiler", VDict [("type", VStr "string"); ("index", VStr "not_analyzed")]);
              ("python_implementation", VDict [("type", VStr "string"); ("index", VStr "not_analyzed")]);
              ("python_implementation_version", VDict [("type", VStr "string"); ("index", VStr "not_analyzed")]);
              ("python_version", VDict [("type", VStr "string"); ("index", VStr "not_analyzed")]);
              ("release", VDict [("type", VStr "string"); ("index", VStr "not_analyzed")]);
              ("system", VDict [("type", VStr "string"); ("index", VStr "not_analyzed")])])]);
          ("options", VDict [
            ("properties", VDict [
              ("disable_gc", VDict [("type", VStr "boolean")]);
              ("max_time", VDict [("type", VStr "double")]);
              ("min_rounds", VDict [("type", VStr "long")]);
              ("min_time", VDict [("type", VStr "double")]);
              ("timer", VDict [("type", VStr "string")]);
              ("warmup", VDict [("type", VStr "boolean")])])]);
          ("stats", VDict [
            ("properties", VDict [
              ("hd15iqr", VDict [("type", VStr "double")]);
              ("iqr", VDict [("type", VStr "double")]);
              ("iqr_outliers", VDict [("type", VStr "long")]);
              ("iterations", VDict [("type", VStr "long")]);
              ("ld15iqr", VDict [("type", VStr "double")]);
              ("max", VDict [("type", VStr "double")]);
              ("mean", VDict [("type", VStr "double")]);
              ("median", VDict [("type", VStr "double")]);
              ("min", VDict [("type", VStr "double")]);
              ("outliers", VDict [("type", VStr "string")]);
              ("q1", VDict [("type", VStr "double")]);
              ("q3", VDict [("type", VStr "double")]);
              ("rounds", VDict [("type", VStr "long")]);
              ("stddev", VDict [("type", VStr "double")]);
              ("stddev_outliers", VDict [("type", VStr "long")])])])])])])].

(* ------------------------------------------------------------------ *)
(** ** [class ElasticsearchStorage] *)

Section Storage.

(** The engine is any state machine that answers calls; [transport hosts]
    is one call on the client bound to [hosts], the client's retries
    included. *)
Variable Engine : Type.
Variable transport : value -> api_call -> Engine -> reply * Engine.

(** The logger handle is kept and never used. *)
Variable Logger : Type.

(** What [import elasticsearch] does in the running interpreter. *)
Variable import_elasticsearch : result unit.

(** The client object, [elasticsearch.Elasticsearch(hosts)]. *)
Record client : Type := Elasticsearch { client_hosts : value }.

Record storage : Type := Storage {
  _elasticsearch_hosts : value;
  _elasticsearch_index : value;
  _elasticsearch_doctype : value;
  _elasticsearch : client;
  default_machine_id : value;
  logger : Logger;
  _cache : value
}.

(** A method runs on the object, the engine and the log of requests sent
    so far. *)
Record state : Type := State {
  self : storage;
  engine : Engine;
  log : list request
}.

Definition M (A : Type) : Type := state -> result A * state.

Definition ret {A} (a : A) : M A := fun st => (Ok a, st).

Definition bind {A B} (m : M A) (f : A -> M B) : M B :=
  fun st =>
    match m st with
    | (Ok a, st') => f a st'
    | (Raise e, st') => (Raise e, st')
    end.

Definition lift {A} (r : result A) : M A := fun st => (r, st).

Definition attr {A} (f : storage -> A) : M A := fun st => (Ok (f (self st)), st).

Notation "x <~ m ;; k" := (bind m (fun x => k))
  (at level 61, m at next level, right associativity).

(** One call on the client.  An answer outside 2xx raises unless its
    status is listed in [ignore], in which case its body is returned as
    if the call had succeeded. *)
Definition perform (c : client) (call : api_call) (ignore : list Z) : M value :=
  fun st =>
    let (rep, eng') := transport (client_hosts c) call (engine st) in
    let st' := {| self := self st; engine := eng';
                  log := log st ++ [Request call ignore] |} in
    match rep with
    | Unreachable e => (Raise e, st')
    | Status code body =>
        if ((200 <=? code) && (code <? 300) || existsb (Z.eqb code) ignore)%Z%bool
        then (Ok body, st')
        else (Raise (Exn TransportError [VInt code; body]), st')
    end.

Definition search_body (project id_prefix : value) : result value :=
  let body :=
    VDict [("size", VInt 1000);
           ("sort", VList [VDict [("datetime", VDict [("order", VStr "desc")])]]);
           ("query",
            VDict [("bool",
                    VDict [("filter",
                            VDict [("term",
                                    VDict [("commit_info.project", project)])])])])] in
  if truthy id_prefix
  then assign_in body ["query"; "bool"] "must"
                 (VDict [("prefix", VDict [("_id", id_prefix)])])
  else Ok body.

Definition _search (project id_prefix : value) : M value :=
  body <~ lift (search_body project id_prefix) ;;
  es <~ attr _elasticsearch ;;
  index <~ attr _elasticsearch_index ;;
  doc_type <~ attr _elasticsearch_doctype ;;
  perform es (Search index doc_type body) [].

(** [result[k] = source[k]] for each [k] of [keys], in order. *)
Fixpoint copy_keys (keys : list string) (source_es_record : value) (result : dict)
  : Py.result dict :=
  match keys with
  | [] => Ok result
  | k :: keys' =>
      v <- subscript source_es_record k ;;
      copy_keys keys' source_es_record (setitem result k v)
  end.

Definition benchmark_keys : list string :=
  ["group"; "stats"; "options"; "param"; "name"; "params"; "fullname"].

Definition run_keys : list string :=
  ["machine_info"; "commit_info"; "datetime"; "version"].

Definition _benchmark_from_es_record (source_es_record : value) : result value :=
  result <- copy_keys benchmark_keys source_es_record [] ;;
  Ok (VDict result).

Definition _run_info_from_es_record (source_es_record : value) : result value :=
  result <- copy_keys run_keys source_es_record [] ;;
  Ok (VDict result).

(** ["%s_%s" % (source_hit["commit_info"]["id"], source_hit["datetime"])] *)
Definition commit_and_time (source_hit : value) : result string :=
  commit_info <- subscript source_hit "commit_info" ;;
  id <- subscript commit_info "id" ;;
  dt <- subscript source_hit "datetime" ;;
  Ok (py_str id ++ "_" ++ py_str dt).

(** [result[key]["benchmarks"].append(benchmark)]: the list is extended
    in place, inside the run that [result] holds under [key]. *)
Definition append_benchmark (result : dict) (key : string) (benchmark : value)
  : Py.result dict :=
  run <- subscript (VDict result) key ;;
  benchmarks <- subscript run "benchmarks" ;;
  match benchmarks with
  | VList l =>
      run' <- assign_in run [] "benchmarks" (VList (l ++ [benchmark])) ;;
      Ok (setitem result key run')
  | _ => Raise (Exn AttributeError [])
  end.

(** The body of the loop of [_group_by_commit_and_time]. *)
Definition group_hit (result : dict) (hit : value) : Py.result dict :=
  source_hit <- subscript hit "_source" ;;
  key <- commit_and_time source_hit ;;
  benchmark <- _benchmark_from_es_record source_hit ;;
  if contains result key
  then append_benchmark result key benchmark
  else
    run_info <- _run_info_from_es_record source_hit ;;
    run_info <- assign_in run_info [] "benchmarks" (VList [benchmark]) ;;
    Ok (setitem result key run_info).

Fixpoint group_loop (hits : list value) (result : dict) : Py.result dict :=
  match hits with
  | [] => Ok result
  | hit :: hits' =>
      result' <- group_hit result hit ;;
      group_loop hits' result'
  end.

Definition _group_by_commit_and_time (hits : value) : result dict :=
  hits <- iterate hits ;;
  group_loop hits [].

(** The sort key of [load]:
    [strptime(x[1]["datetime"], "%Y-%m-%dT%H:%M:%S.%f")]. *)
Definition sort_key (x : string * value) : result Strptime.datetime :=
  dt <- subscript (snd x) "datetime" ;;
  Strptime.strptime dt.

(** [r["hits"]["hits"]] *)
Definition hits_of (r : value) : result value :=
  h <- subscript r "hits" ;;
  subscript h "hits".

(** Everything [load] does before its first [yield]. *)
Definition load_result (project id_prefix : value) : M (list (string * value)) :=
  r <~ _search project id_prefix ;;
  hits <~ lift (hits_of r) ;;
  groupped_data <~ lift (_group_by_commit_and_time hits) ;;
  lift (Sorting.list_sort Strptime.dt_ltb sort_key groupped_data).

(** [load], iterated to its end. *)
Definition load (project id_prefix : value) (st : state)
  : outcome (string * value) * state :=
  match load_result project id_prefix st with
  | (Ok result, st') => (Done result, st')
  | (Raise e, st') => (Broke [] e, st')
  end.

(** [query]: the list comprehension drains [load(project)]. *)
Definition query (project : value) : M (list string) :=
  fun st =>
    match load project VNone st with
    | (Done ys, st') => (Ok (map fst ys), st')
    | (Broke _ e, st') => (Raise e, st')
    end.

(** The loop of [load_benchmarks]: one [yield] per hit, until a hit makes
    [_benchmark_from_es_record] raise. *)
Fixpoint yield_benchmarks (hits : list value) : outcome value :=
  match hits with
  | [] => Done []
  | hit :: hits' =>
      match (source <- subscript hit "_source" ;;
             _benchmark_from_es_record source) with
      | Ok benchmark => yield benchmark (yield_benchmarks hits')
      | Raise e => Broke [] e
      end
  end.

(** [load_benchmarks], iterated to its end. *)
Definition load_benchmarks (project : value) (st : state) : outcome value * state :=
  match (r <~ _search project VNone ;;
         hits <~ lift (hits_of r) ;;
         lift (iterate hits)) st with
  | (Ok hits, st') => (yield_benchmarks hits, st')
  | (Raise e, st') => (Broke [] e, st')
  end.

Definition save (document document_id : value) : M unit :=
  es <~ attr _elasticsearch ;;
  index <~ attr _elasticsearch_index ;;
  doc_type <~ attr _elasticsearch_doctype ;;
  _ <~ perform es (Index index doc_type document document_id) [] ;;
  ret tt.

Definition _create_index : M unit :=
  es <~ attr _elasticsearch ;;
  index <~ attr _elasticsearch_index ;;
  _ <~ perform es (IndicesCreate index mapping) [400%Z] ;;
  ret tt.

Definition install_hint : string :=
  "Please install elasticsearch or pytest-benchmark[elasticsearch]".

(** The constructor, from an engine and a log: the new object on success. *)
Definition __init__ (elasticsearch_hosts elasticsearch_index elasticsearch_doctype : value)
           (logger0 : Logger) (default_machine_id0 : value)
           (eng : Engine) (log0 : list request)
  : result storage * Engine * list request :=
  match import_elasticsearch with
  | Raise exc =>
      if is_import_error (exn_cls exc)
      then (Raise (Exn ImportError [VTuple (exn_args exc); VStr install_hint]), eng, log0)
      else (Raise exc, eng, log0)
  | Ok _ =>
      let obj :=
        {| _elasticsearch_hosts := elasticsearch_hosts;
           _elasticsearch_index := elasticsearch_index;
           _elasticsearch_doctype := elasticsearch_doctype;
           _elasticsearch := Elasticsearch elasticsearch_hosts;
           default_machine_id := default_machine_id0;
           logger := logger0;
           _cache := VDict [] |} in
      match _create_index (State obj eng log0) with
      | (Ok _, st) => (Ok (self st), engine st, log st)
      | (Raise e, st) => (Raise e, engine st, log st)
      end
  end.

End Storage.

Arguments Elasticsearch hosts : rename.
Arguments Storage {Logger}.
Arguments _elasticsearch_hosts {Logger}.
Arguments _elasticsearch_index {Logger}.
Arguments _elasticsearch_doctype {Logger}.
Arguments _elasticsearch {Logger}.
Arguments default_machine_id {Logger}.
Arguments logger {Logger}.
Arguments _cache {Logger}.
Arguments State {Engine Logger}.
Arguments self {Engine Logger}.
Arguments engine {Engine Logger}.
Arguments log {Engine Logger}.
Arguments ret {Engine Logger A}.
Arguments bind {Engine Logger A B}.
Arguments lift {Engine Logger A}.
Arguments perform {Engine} transport {Logger}.
Arguments _search {Engine} transport {Logger}.
Arguments load_result {Engine} transport {Logger}.
Arguments load {Engine} transport {Logger}.
Arguments query {Engine} transport {Logger}.
Arguments load_benchmarks {Engine} transport {Logger}.
Arguments save {Engine} transport {Logger}.
Arguments _create_index {Engine} transport {Logger}.
Arguments __init__ {Engine} transport {Logger}.

(* ------------------------------------------------------------------ *)
(** ** A small engine to run the adapter against *)

Module MemEngine.

(** The engine keeps the stored documents as hits, the latest first.  A
    search selects by the [term] filter on the project and by the
    [prefix] clause on [_id] when the body has one, and returns at most
    [size] hits; it does not reorder them. *)
Definition t : Type := list value.

Definition same_str (a b : option value) : bool :=
  match a, b with
  | Some (VStr x), Some (VStr y) => String.eqb x y
  | _, _ => false
  end.

Definition selected (body hit : value) : bool :=
  (same_str (path hit ["_source"; "commit_info"; "project"])
            (path body ["query"; "bool"; "filter"; "term"; "commit_info.project"])
   && match path body ["query"; "bool"; "must"; "prefix"; "_id"] with
      | None => true
      | Some (VStr p) =>
          match path hit ["_id"] with
          | Some (VStr i) => String.prefix p i
          | _ => false
          end
      | Some _ => false
      end)%bool.

Definition size (body : value) : nat :=
  match path body ["size"] with
  | Some (VInt n) => Z.to_nat n
  | _ => 10
  end.

Definition transport (hosts : value) (call : api_call) (db : t) : reply * t :=
  match call with
  | Search _ _ body =>
      (Status 200
         (VDict [("hits",
                  VDict [("hits", VList (firstn (size body) (filter (selected body) db)))])]),
       db)
  | Index _ _ document id =>
      (Status 201 (VDict [("created", VBool true)]),
       VDict [("_id", id); ("_source", document)] :: db)
  | IndicesCreate _ _ =>
      (Status 400
         (VDict [("error", VDict [("type", VStr "index_already_exists_exception")]);
                 ("status", VInt 400)]),
       db)
  end.

(** A benchmark document of project ["p"]. *)
Definition document (commit datetime name version : string) : value :=
  VDict [("commit_info",
          VDict [("id", VStr commit); ("project", VStr "p"); ("dirty", VBool false)]);
         ("datetime", VStr datetime);
         ("machine_info", VDict [("node", VStr "host")]);
         ("version", VStr version);
         ("group", VNone);
         ("stats", VDict [("rounds", VInt 5); ("mean", VFloat "0.25")]);
         ("options", VDict [("disable_gc", VBool false)]);
         ("param", VNone);
         ("name", VStr name);
         ("params", VNone);
         ("fullname", VStr ("tests/test_x.py::" ++ name))].

Definition hit (id : string) (source : value) : value :=
  VDict [("_id", VStr id); ("_source", source)].

Definition jan1 : string := "2020-01-01T00:00:00.000000".
Definition jan2 : string := "2020-01-02T00:00:00.000000".

(** Three stored documents; the engine lists the latest run first. *)
Definition db3 : t :=
  [hit "abc123_0002_b" (document "abc123" jan1 "test_b" "3.1");
   hit "abc123_0001_a" (document "abc123" jan2 "test_a" "3.0");
   hit "abc123_0002_a" (document "abc123" jan1 "test_a" "3.0")].

Definition obj : storage unit :=
  Storage (VList [VStr "localhost:9200"]) (VStr "benchmark") (VStr "benchmark")
          (Elasticsearch (VList [VStr "localhost:9200"])) VNone tt (VDict []).

Definition st3 : state t unit := State obj db3 [].

(** The first pair that [load] yields from [db3]. *)
Definition first_run : string * value :=
  nth 0 (yielded (fst (load transport (VStr "p") VNone st3))) ("", VNone).

(** A store with one document whose timestamp has a blank where the
    format has a [T], and no fraction. *)
Definition db_bad : t :=
  [hit "abc123_0003_a" (document "abc123" "2020-01-03 00:00:00" "test_a" "3.0");
   hit "abc123_0001_a" (document "abc123" jan2 "test_a" "3.0")].

Definition st_bad : state t unit := State obj db_bad [].

End MemEngine.

(* ------------------------------------------------------------------ *)
(** ** Vocabulary of the statements *)

(** What the loop of [_group_by_commit_and_time] computes from one hit. *)
Definition hit_key (hit : value) : result string :=
  source_hit <- subscript hit "_source" ;;
  commit_and_time source_hit.

Definition hit_benchmark (hit : value) : result value :=
  source_hit <- subscript hit "_source" ;;
  _benchmark_from_es_record source_hit.

Definition hit_run_info (hit : value) : result value :=
  source_hit <- subscript hit "_source" ;;
  _run_info_from_es_record source_hit.

Definition hit_time (hit : value) : result Strptime.datetime :=
  source_hit <- subscript hit "_source" ;;
  dt <- subscript source_hit "datetime" ;;
  Strptime.strptime dt.

Definition is_ok {A} (r : result A) : bool :=
  match r with
  | Ok _ => true
  | Raise _ => false
  end.

(** A hit that carries every field the adapter reads, with a timestamp
    that parses. *)
Definition well_formed (hit : value) : bool :=
  (is_ok (hit_key hit) && is_ok (hit_benchmark hit) &&
   is_ok (hit_run_info hit) && is_ok (hit_time hit))%bool.

Definition key_of (hit : value) : string :=
  match hit_key hit with
  | Ok k => k
  | Raise _ => ""
  end.

Definition benchmark_of (hit : value) : value :=
  match hit_benchmark hit with
  | Ok b => b
  | Raise _ => VNone
  end.

Definition has_key (k : string) (hit : value) : bool := String.eqb (key_of hit) k.

(** The benchmark sub-records of the hits filed under [k], in hit order. *)
Definition benchmarks_for (k : string) (hits : list value) : list value :=
  map benchmark_of (filter (has_key k) hits).

(** The first hit filed under [k]. *)
Definition first_hit (k : string) (hits : list value) : option value :=
  find (has_key k) hits.

(** The keys of a list, each once, in order of first appearance. *)
Definition distinct (l : list string) : list string :=
  rev (nodup string_dec (rev l)).

(** The run filed under [k]: the run information of its first hit, and the
    benchmarks of all its hits. *)
Definition run_of (k : string) (hits : list value) : value :=
  match first_hit k hits with
  | Some h =>
      match hit_run_info h with
      | Ok (VDict info) => VDict (setitem info "benchmarks" (VList (benchmarks_for k hits)))
      | _ => VNone
      end
  | None => VNone
  end.

Definition groups (hits : list value) : dict :=
  map (fun k => (k, run_of k hits)) (distinct (map key_of hits)).

(** The hits that the engine returns for a search, as the loops see them. *)
Definition search_hits {Engine Logger : Type} transport (project id_prefix : value)
  : M Engine Logger (list value) :=
  bind (_search transport project id_prefix)
       (fun r => lift (hits <- hits_of r ;; iterate hits)).

(** The run records of [load], grouped and not yet sorted. *)
Definition grouped {Engine Logger : Type} transport (project id_prefix : value)
  : M Engine Logger dict :=
  bind (_search transport project id_prefix)
       (fun r => lift (hits <- hits_of r ;; _group_by_commit_and_time hits)).

(** The request that a search by [self st] with [body] puts on the wire. *)
Definition search_request {Engine Logger : Type} (st : state Engine Logger) (body : value)
  : request :=
  Request (Search (_elasticsearch_index (self st)) (_elasticsearch_doctype (self st)) body) [].

(** The fixed part of every search body. *)
Definition has_search_shape (project body : value) : Prop :=
  path body ["size"] = Some (VInt 1000) /\
  path body ["sort"] = Some (VList [VDict [("datetime", VDict [("order", VStr "desc")])]]) /\
  path body ["query"; "bool"; "filter"]
  = Some (VDict [("term", VDict [("commit_info.project", project)])]).

(** The clause on the document identifier. *)
Definition must_clause (body : value) : option value :=
  path body ["query"; "bool"; "must"].

Definition prefix_clause (id_prefix : value) : value :=
  VDict [("prefix", VDict [("_id", id_prefix)])].

(** The identifier under which the hit's document is stored starts with [p]. *)
Definition id_starts_with (p : string) (hit : value) : bool :=
  match path hit ["_id"] with
  | Some (VStr i) => String.prefix p i
  | _ => false
  end.

(** An engine that applies the [prefix] clause of a search: every hit it
    returns for a body with the clause [{"prefix": {"_id": p}}] is stored
    under an identifier that starts with [p]. *)
Definition honours_prefix {Engine : Type}
           (transport : value -> api_call -> Engine -> reply * Engine) : Prop :=
  forall hosts index doc_type body eng code resp eng' p hits,
    transport hosts (Search index doc_type body) eng = (Status code resp, eng') ->
    path body ["query"; "bool"; "must"; "prefix"; "_id"] = Some (VStr p) ->
    (hv <- hits_of resp ;; iterate hv) = Ok hits ->
    forallb (id_starts_with p) hits = true.

(** A hit whose [_source] is a dict with the seven benchmark fields. *)
Definition carries_benchmark (hit : value) : bool :=
  match subscript hit "_source" with
  | Ok (VDict source) => forallb (contains source) benchmark_keys
  | _ => false
  end.

(** [y] is the benchmark record of [hit]: the seven fields, in the order
    the adapter copies them, each with the value the hit's [_source] has. *)
Definition is_benchmark_of (hit y : value) : Prop :=
  exists source g s o p n ps f,
    subscript hit "_source" = Ok source /\
    subscript source "group" = Ok g /\ subscript source "stats" = Ok s /\
    subscript source "options" = Ok o /\ subscript source "param" = Ok p /\
    subscript source "name" = Ok n /\ subscript source "params" = Ok ps /\
    subscript source "fullname" = Ok f /\
    y = VDict [("group", g); ("stats", s); ("options", o); ("param", p);
               ("name", n); ("params", ps); ("fullname", f)].

(** What [indices.create(..., ignore=400)] returns for an answer. *)
Definition create_outcome (rep : reply) : result unit :=
  match rep with
  | Status code body =>
      if ((200 <=? code) && (code <? 300) || (code =? 400))%Z%bool
      then Ok tt
      else Raise (Exn TransportError [VInt code; body])
  | Unreachable e => Raise e
  end.

(** The engine's answer says that the index exists already. *)
Definition already_exists (body : value) : bool :=
  match path body ["error"; "type"] with
  | Some (VStr t) =>
      (String.eqb t "index_already_exists_exception"
       || String.eqb t "resource_already_exists_exception")%bool
  | _ => false
  end.

(** An engine that refuses the mapping it is sent: it answers the creation
    of an index with status 400 and a parsing error, and creates nothing. *)
Module RejectingEngine.

Definition refusal : value :=
  VDict [("error", VDict [("type", VStr "mapper_parsing_exception");
                          ("reason", VStr "No handler for type [string] declared on field [name]")]);
         ("status", VInt 400)].

Definition transport (hosts : value) (call : api_call) (eng : unit) : reply * unit :=
  match call with
  | IndicesCreate _ _ => (Status 400 refusal, tt)
  | Search _ _ _ =>
      (Status 404 (VDict [("error", VDict [("type", VStr "index_not_found_exception")]);
                          ("status", VInt 404)]), tt)
  | Index _ _ _ _ => (Status 201 (VDict [("created", VBool true)]), tt)
  end.

Definition st0 : state unit unit :=
  State (Storage (VStr "localhost") (VStr "benchmark") (VStr "benchmark")
                 (Elasticsearch (VStr "localhost")) VNone tt (VDict []))
        tt [].

End RejectingEngine.

(** The first run that the grouping builds from [MemEngine.db_bad]. *)
Definition bad_run : string * value :=
  match grouped MemEngine.transport (VStr "p") VNone MemEngine.st_bad with
  | (Ok g, _) => nth 0 g ("", VNone)
  | _ => ("", VNone)
  end.

(* ------------------------------------------------------------------ *)
(** ** Stored documents, read without the adapter *)

(** The key of a hit as the documents define it: [str()] of the commit
    id, an underscore, [str()] of the datetime. *)
Definition composed_key (hit : value) : string :=
  match path hit ["_source"; "commit_info"; "id"], path hit ["_source"; "datetime"] with
  | Some id, Some datetime => py_str id ++ "_" ++ py_str datetime
  | _, _ => ""
  end.

(** A hit as the plugin stores it: its [_source] is a dict with the four
    run fields and the seven benchmark fields, the commit information has
    an [id], and the [datetime] is accepted by [strptime]. *)
Definition stored_document (hit : value) : bool :=
  match path hit ["_source"] with
  | Some (VDict source) =>
      (forallb (contains source)
               ["machine_info"; "commit_info"; "datetime"; "version";
                "group"; "stats"; "options"; "param"; "name"; "params"; "fullname"]
       && match path (VDict source) ["commit_info"; "id"] with
          | Some _ => true
          | None => false
          end
       && match getitem source "datetime" with
          | Some datetime => is_ok (Strptime.strptime datetime)
          | None => false
          end)%bool
  | _ => false
  end.

(* ------------------------------------------------------------------ *)
(** ** The rest of the class, and more vocabulary *)

(** [__str__] and the [location] property: both are
    [str(self._elasticsearch_hosts)]. *)
Definition __str__ {Logger : Type} (self : storage Logger) : string :=
  py_str (_elasticsearch_hosts self).

Definition location {Logger : Type} (self : storage Logger) : string :=
  py_str (_elasticsearch_hosts self).

(** What a call with nothing to ignore returns for an answer. *)
Definition reply_outcome (rep : reply) : result value :=
  match rep with
  | Status code body =>
      if ((200 <=? code) && (code <? 300))%Z%bool
      then Ok body
      else Raise (Exn TransportError [VInt code; body])
  | Unreachable e => Raise e
  end.

(** The first of [keys] that the dict [d] does not have. *)
Definition first_missing (keys : list string) (d : dict) : option string :=
  find (fun k => negb (contains d k)) keys.

Definition lookup_or_none (d : dict) (k : string) : value :=
  match getitem d k with
  | Some v => v
  | None => VNone
  end.

(** The benchmarks that a run record lists. *)
Definition run_benchmarks (run : value) : list value :=
  match path run ["benchmarks"] with
  | Some (VList l) => l
  | _ => []
  end.

(** The pair's timestamp parses to a time that is neither before nor after
    [t]. *)
Definition time_is (t : Strptime.datetime) (y : string * value) : bool :=
  match sort_key y with
  | Ok t' => (negb (Strptime.dt_ltb t t') && negb (Strptime.dt_ltb t' t))%bool
  | Raise _ => false
  end.

Definition no_underscore (s : string) : bool := negb (has_char "_"%char s).

Module Samples.

(** A hit of project ["p"] under the key of January 1st that carries the
    benchmark fields but neither [machine_info] nor [version]. *)
Definition bare_hit : value :=
  MemEngine.hit "abc123_0002_c"
    (VDict [("commit_info", VDict [("id", VStr "abc123"); ("project", VStr "p")]);
            ("datetime", VStr MemEngine.jan1);
            ("group", VNone); ("stats", VNone); ("options", VNone); ("param", VNone);
            ("name", VStr "test_c"); ("params", VNone);
            ("fullname", VStr "tests/test_x.py::test_c")]).

(** A hit of project ["p"] without [params] and [fullname]. *)
Definition short_hit : value :=
  MemEngine.hit "abc123_0004_a"
    (VDict [("commit_info", VDict [("id", VStr "abc123"); ("project", VStr "p")]);
            ("datetime", VStr MemEngine.jan2);
            ("machine_info", VDict []); ("version", VStr "3.0");
            ("group", VNone); ("stats", VNone); ("options", VNone); ("param", VNone);
            ("name", VStr "test_d")]).

(** A good hit, then the short one, then another good hit. *)
Definition db_short : MemEngine.t :=
  [MemEngine.hit "abc123_0002_b" (MemEngine.document "abc123" MemEngine.jan1 "test_b" "3.1");
   short_hit;
   MemEngine.hit "abc123_0001_a" (MemEngine.document "abc123" MemEngine.jan2 "test_a" "3.0")].

Definition st_short : state MemEngine.t unit := State MemEngine.obj db_short [].

(** Two commits benchmarked at the same instant, the later stored first,
    and an earlier run. *)
Definition db_tie : MemEngine.t :=
  [MemEngine.hit "bbb_1" (MemEngine.document "bbb" MemEngine.jan2 "test_a" "3.0");
   MemEngine.hit "aaa_1" (MemEngine.document "aaa" MemEngine.jan2 "test_a" "3.0");
   MemEngine.hit "ccc_1" (MemEngine.document "ccc" MemEngine.jan1 "test_a" "3.0")].

Definition st_tie : state MemEngine.t unit := State MemEngine.obj db_tie [].

(** An engine that cannot be reached. *)
Definition refused : exn :=
  Exn (Subclass "ConnectionError" TransportError) [VStr "Connection refused"].

Definition unreachable (hosts : value) (call : api_call) (eng : unit) : reply * unit :=
  (Unreachable refused, tt).

(** An engine whose search answers carry no [hits]. *)
Definition hitless (hosts : value) (call : api_call) (eng : unit) : reply * unit :=
  (Status 200 (VDict [("took", VInt 1); ("timed_out", VBool false)]), tt).

End Samples.

(* ------------------------------------------------------------------ *)
(** ** Dictionaries *)

Lemma getitem_setitem_same (d : dict) k v : getitem (setitem d k v) k = Some v.
Proof.
  induction d as [|[k' v'] d IH]; simpl.
  - now rewrite String.eqb_refl.
  - destruct (String.eqb k' k) eqn:E; simpl; rewrite E; auto.
Qed.

Lemma getitem_setitem_other (d : dict) k k' v :
  k <> k' -> getitem (setitem d k v) k' = getitem d k'.
Proof.
  intros Hne. induction d as [|[k0 v0] d IH]; simpl.
  - destruct (String.eqb_spec k k'); congruence.
  - destruct (String.eqb_spec k0 k); simpl.
    + subst. destruct (String.eqb_spec k k'); congruence.
    + destruct (String.eqb_spec k0 k'); auto.
Qed.

Lemma setitem_setitem_same (d : dict) k v w :
  setitem (setitem d k v) k w = setitem d k w.
Proof.
  induction d as [|[k0 v0] d IH]; simpl.
  - now rewrite String.eqb_refl.
  - destruct (String.eqb k0 k) eqn:E; simpl; rewrite E; congruence.
Qed.

Lemma setitem_fresh (d : dict) k v :
  getitem d k = None -> setitem d k v = (d ++ [(k, v)])%list.
Proof.
  induction d as [|[k0 v0] d IH]; simpl; auto.
  destruct (String.eqb k0 k); [discriminate|].
  intros H. now rewrite IH.
Qed.

Lemma getitem_tabulate (f : string -> value) ks k :
  getitem (map (fun x => (x, f x)) ks) k = if in_dec string_dec k ks then Some (f k) else None.
Proof.
  induction ks as [|x ks IH]; simpl; auto.
  destruct (String.eqb_spec x k).
  - subst. destruct (string_dec k k); congruence.
  - rewrite IH. destruct (string_dec x k); [congruence|].
    destruct (in_dec string_dec k ks); auto.
Qed.

Lemma setitem_tabulate (f : string -> value) ks k v :
  NoDup ks -> In k ks ->
  setitem (map (fun x => (x, f x)) ks) k v
  = map (fun x => (x, if String.eqb x k then v else f x)) ks.
Proof.
  induction ks as [|x ks IH]; simpl; [tauto|].
  intros Hnd Hin. inversion Hnd as [|? ? Hx Hnd']; subst.
  destruct (String.eqb_spec x k).
  - subst. f_equal. apply map_ext_in. intros y Hy.
    destruct (String.eqb_spec y k); congruence.
  - destruct Hin as [->|Hin]; [congruence|]. now rewrite IH.
Qed.

(** *** Keys in order of first appearance *)

Lemma distinct_snoc l x :
  distinct (l ++ [x]) = if in_dec string_dec x l then distinct l else (distinct l ++ [x])%list.
Proof.
  unfold distinct. rewrite rev_app_distr. simpl.
  destruct (in_dec string_dec x (rev l)) as [H|H];
    destruct (in_dec string_dec x l) as [H'|H']; auto.
  - apply in_rev in H. contradiction.
  - apply in_rev in H'. contradiction.
Qed.

Lemma distinct_In l x : In x (distinct l) <-> In x l.
Proof.
  unfold distinct. rewrite <- in_rev, nodup_In, <- in_rev. tauto.
Qed.

Lemma distinct_NoDup l : NoDup (distinct l).
Proof.
  unfold distinct. apply NoDup_rev, NoDup_nodup.
Qed.

Lemma distinct_length l :
  List.length (distinct l) = List.length (nodup string_dec l).
Proof.
  apply Permutation_length, NoDup_Permutation.
  - apply distinct_NoDup.
  - apply NoDup_nodup.
  - intros x. rewrite distinct_In, nodup_In. tauto.
Qed.

(* ------------------------------------------------------------------ *)
(** ** Grouping *)

Lemma group_loop_snoc l h acc :
  group_loop (l ++ [h]) acc = (r <- group_loop l acc ;; group_hit r h).
Proof.
  revert acc. induction l as [|x l IH]; intros acc; simpl.
  - destruct (group_hit acc h); reflexivity.
  - destruct (group_hit acc x); simpl; auto.
Qed.

Lemma run_info_is_dict src ri :
  _run_info_from_es_record src = Ok ri -> exists info, ri = VDict info.
Proof.
  unfold _run_info_from_es_record.
  destruct (copy_keys run_keys src []); simpl; intros H; inversion H; eauto.
Qed.

Lemma well_formed_inv h :
  well_formed h = true ->
  exists src k b info t,
    subscript h "_source" = Ok src /\
    commit_and_time src = Ok k /\
    _benchmark_from_es_record src = Ok b /\
    _run_info_from_es_record src = Ok (VDict info) /\
    key_of h = k /\ benchmark_of h = b /\
    hit_run_info h = Ok (VDict info) /\ hit_time h = Ok t.
Proof.
  unfold well_formed, key_of, benchmark_of, hit_key, hit_benchmark, hit_run_info, hit_time.
  destruct (subscript h "_source") as [src|] eqn:Hsrc; simpl; [|discriminate].
  destruct (commit_and_time src) as [k|] eqn:Hk; simpl; [|discriminate].
  destruct (_benchmark_from_es_record src) as [b|] eqn:Hb; simpl; [|discriminate].
  destruct (_run_info_from_es_record src) as [ri|] eqn:Hri; simpl; [|discriminate].
  destruct (run_info_is_dict _ _ Hri) as [info ->].
  destruct (rbind (subscript src "datetime") _) as [t|]; simpl; [|discriminate].
  intros _. exists src, k, b, info, t. repeat split; auto.
Qed.

Lemma first_hit_snoc k l h :
  first_hit k (l ++ [h])
  = match first_hit k l with
    | Some x => Some x
    | None => if has_key k h then Some h else None
    end.
Proof.
  unfold first_hit. induction l as [|x l IH]; simpl.
  - reflexivity.
  - destruct (has_key k x); auto.
Qed.

Lemma benchmarks_for_snoc k l h :
  benchmarks_for k (l ++ [h])
  = (benchmarks_for k l ++ (if has_key k h then [benchmark_of h] else []))%list.
Proof.
  unfold benchmarks_for. rewrite filter_app, map_app. simpl.
  destruct (has_key k h); reflexivity.
Qed.

Lemma first_hit_some k l :
  In k (map key_of l) ->
  exists h0, first_hit k l = Some h0 /\ In h0 l /\ key_of h0 = k.
Proof.
  unfold first_hit. induction l as [|x l IH]; simpl; [tauto|].
  intros Hin. unfold has_key at 1. destruct (String.eqb_spec (key_of x) k) as [E|E].
  - exists x. auto.
  - destruct Hin as [Hin|Hin]; [contradiction|].
    destruct (IH Hin) as (h0 & Hf & Hin0 & Hk). exists h0. auto.
Qed.

Lemma first_hit_none k l :
  ~ In k (map key_of l) -> first_hit k l = None /\ benchmarks_for k l = [].
Proof.
  unfold first_hit, benchmarks_for. induction l as [|x l IH]; simpl; auto.
  intros Hnin. unfold has_key at 1 3.
  destruct (String.eqb_spec (key_of x) k) as [E|E]; [tauto|].
  apply IH. tauto.
Qed.

(** Under a key that has a hit, [run_of] is the run information of the
    first hit extended with the benchmarks. *)
Lemma run_of_first k l :
  Forall (fun x => well_formed x = true) l ->
  In k (map key_of l) ->
  exists h0 info,
    first_hit k l = Some h0 /\ In h0 l /\ key_of h0 = k /\
    hit_run_info h0 = Ok (VDict info) /\
    run_of k l = VDict (setitem info "benchmarks" (VList (benchmarks_for k l))).
Proof.
  intros Hwf Hin.
  destruct (first_hit_some k l Hin) as (h0 & Hf & Hin0 & Hk).
  rewrite Forall_forall in Hwf.
  destruct (well_formed_inv h0 (Hwf _ Hin0))
    as (src & k' & b & info & t & _ & _ & _ & _ & _ & _ & Hinfo & _).
  exists h0, info. unfold run_of. rewrite Hf, Hinfo. auto.
Qed.

Lemma group_hit_groups l h :
  Forall (fun x => well_formed x = true) l ->
  well_formed h = true ->
  group_hit (groups l) h = Ok (groups (l ++ [h])).
Proof.
  intros Hl Hh.
  destruct (well_formed_inv h Hh)
    as (src & k & b & info & t & Hsrc & Hk & Hb & Hinfo & Hkey & Hbench & Hhinfo & _).
  assert (Hhas : has_key k h = true) by (unfold has_key; rewrite Hkey; apply String.eqb_refl).
  unfold group_hit. rewrite Hsrc; simpl. rewrite Hk; simpl. rewrite Hb; simpl.
  unfold contains, append_benchmark. simpl subscript.
  unfold groups. rewrite getitem_tabulate, map_app. simpl map.
  rewrite Hkey, distinct_snoc.
  destruct (in_dec string_dec k (distinct (map key_of l))) as [Hin|Hnin];
    destruct (in_dec string_dec k (map key_of l)) as [Hin'|Hnin'];
    try (rewrite distinct_In in *; contradiction).
  - destruct (run_of_first k l Hl Hin') as (h0 & info0 & Hf & Hin0 & Hk0 & Hinfo0 & Hrun).
    rewrite Hrun. simpl. rewrite getitem_setitem_same. simpl.
    rewrite setitem_setitem_same, setitem_tabulate; auto using distinct_NoDup.
    f_equal. apply map_ext_in. intros x Hx. f_equal.
    unfold run_of. rewrite first_hit_snoc, benchmarks_for_snoc.
    destruct (String.eqb_spec x k) as [->|Hne].
    + rewrite Hf, Hinfo0, Hhas, Hbench. reflexivity.
    + assert (has_key x h = false) as ->.
      { unfold has_key. rewrite Hkey. destruct (String.eqb_spec k x); congruence. }
      rewrite app_nil_r. destruct (first_hit x l); reflexivity.
  - rewrite Hinfo. simpl.
    rewrite setitem_fresh.
    2:{ rewrite getitem_tabulate. destruct (in_dec string_dec k (distinct (map key_of l))); tauto. }
    rewrite map_app. simpl. f_equal. f_equal.
    + apply map_ext_in. intros x Hx. f_equal.
      unfold run_of. rewrite first_hit_snoc, benchmarks_for_snoc.
      assert (has_key x h = false) as ->.
      { unfold has_key. rewrite Hkey. destruct (String.eqb_spec k x); [|reflexivity].
        subst. contradiction. }
      rewrite app_nil_r. destruct (first_hit x l); reflexivity.
    + f_equal. f_equal. unfold run_of. rewrite first_hit_snoc, benchmarks_for_snoc.
      destruct (first_hit_none k l Hnin') as [-> ->].
      rewrite Hhas, Hhinfo, Hbench. reflexivity.
Qed.

Lemma group_loop_groups hits :
  Forall (fun x => well_formed x = true) hits ->
  group_loop hits [] = Ok (groups hits).
Proof.
  induction hits as [|h l IH] using rev_ind; intros Hwf.
  - reflexivity.
  - apply Forall_app in Hwf. destruct Hwf as [Hl Hh].
    inversion Hh; subst.
    rewrite group_loop_snoc, IH by assumption. simpl.
    now apply group_hit_groups.
Qed.

(* ------------------------------------------------------------------ *)
(** ** Sorting *)

Module SortingFacts.
Import Sorting.
Section Facts.
Context {A K : Type}.
Variable ltb : K -> K -> bool.
Variable key : A -> result K.

Hypothesis ltb_asym : forall a b, ltb a b = true -> ltb b a = false.
Hypothesis le_trans : forall a b c, key_le ltb a b -> key_le ltb b c -> key_le ltb a c.

Lemma insert_perm (x : K * A) l : Permutation (insert ltb x l) (x :: l).
Proof.
  induction l as [|y l IH]; simpl; auto.
  destruct (ltb (fst y) (fst x)); auto.
  rewrite IH. apply perm_swap.
Qed.

Lemma sort_perm (l : list (K * A)) : Permutation (sort_decorated ltb l) l.
Proof.
  induction l as [|x l IH]; simpl; auto.
  rewrite insert_perm. auto.
Qed.

Lemma insert_hd (x y : K * A) l :
  item_le ltb y x -> HdRel (item_le ltb) y l -> HdRel (item_le ltb) y (insert ltb x l).
Proof.
  intros Hyx Hhd. destruct l as [|z l]; simpl.
  - constructor. exact Hyx.
  - inversion Hhd; subst. destruct (ltb (fst z) (fst x)); constructor; auto.
Qed.

Lemma insert_sorted (x : K * A) l :
  Sorted (item_le ltb) l -> Sorted (item_le ltb) (insert ltb x l).
Proof.
  induction l as [|y l IH]; simpl; intros Hs.
  - repeat constructor.
  - inversion Hs as [|? ? Hs' Hhd]; subst.
    destruct (ltb (fst y) (fst x)) eqn:E.
    + constructor; [now apply IH|]. apply insert_hd; [|assumption].
      unfold item_le, key_le. now apply ltb_asym.
    + constructor; [assumption|]. constructor. exact E.
Qed.

Lemma sort_sorted (l : list (K * A)) :
  StronglySorted (item_le ltb) (sort_decorated ltb l).
Proof.
  apply Sorted_StronglySorted.
  - intros a b c. unfold item_le. apply le_trans.
  - induction l as [|x l IH]; simpl; [constructor|].
    now apply insert_sorted.
Qed.

Lemma decorate_spec l kl :
  decorate key l = Ok kl ->
  map snd kl = l /\ Forall (fun p => key (snd p) = Ok (fst p)) kl.
Proof.
  revert kl. induction l as [|x l IH]; simpl; intros kl H.
  - inversion H; subst. split; constructor.
  - destruct (key x) as [k|] eqn:Hk; simpl in H; [|discriminate].
    destruct (decorate key l) as [kl'|]; simpl in H; [|discriminate].
    inversion H; subst. destruct (IH kl' eq_refl) as [Hm Hf].
    simpl. split; [congruence|]. constructor; auto.
Qed.

Lemma decorate_ok l :
  Forall (fun x => is_ok (key x) = true) l -> exists kl, decorate key l = Ok kl.
Proof.
  induction 1 as [|x l Hx _ [kl IH]]; simpl; eauto.
  destruct (key x); [|discriminate]. rewrite IH. simpl. eauto.
Qed.

Lemma decorate_raise l :
  Exists (fun x => is_ok (key x) = false) l -> exists e, decorate key l = Raise e.
Proof.
  induction l as [|x l IH]; intros H; inversion H; subst; simpl.
  - destruct (key x); [discriminate|]. simpl. eauto.
  - destruct (key x); simpl; eauto.
    destruct (IH H1) as [e ->]. simpl. eauto.
Qed.

(** What a sort that returns has done. *)
Lemma list_sort_spec l ys :
  list_sort ltb key l = Ok ys ->
  Permutation ys l /\
  exists ks, Forall2 (fun y k => key y = Ok k) ys ks /\ StronglySorted (key_le ltb) ks.
Proof.
  unfold list_sort. destruct (decorate key l) as [kl|] eqn:Hd; simpl; [|discriminate].
  intros H. inversion H; subst; clear H.
  destruct (decorate_spec _ _ Hd) as [Hm Hf]. split.
  - rewrite <- Hm. apply Permutation_map, sort_perm.
  - exists (map fst (sort_decorated ltb kl)). split.
    + assert (Hf' : Forall (fun p => key (snd p) = Ok (fst p)) (sort_decorated ltb kl)).
      { rewrite Forall_forall in *. intros p Hp. apply Hf.
        eapply Permutation_in; [apply sort_perm|exact Hp]. }
      induction Hf'; simpl; constructor; auto.
    + generalize (sort_sorted kl). generalize (sort_decorated ltb kl).
      induction 1 as [|p l' Hs IH Hall]; simpl; constructor; auto.
      rewrite Forall_forall in *. intros k Hk.
      apply in_map_iff in Hk. destruct Hk as (q & <- & Hq). now apply Hall.
Qed.
End Facts.
End SortingFacts.

Lemma lex_ltb_asym a b : Strptime.lex_ltb a b = true -> Strptime.lex_ltb b a = false.
Proof.
  revert b. induction a as [|x a IH]; destruct b as [|y b]; simpl; auto; try discriminate.
  destruct (Z.ltb_spec x y), (Z.ltb_spec y x); auto; try lia; discriminate.
Qed.

Lemma lex_le_trans a b c :
  Strptime.lex_ltb b a = false -> Strptime.lex_ltb c b = false ->
  Strptime.lex_ltb c a = false.
Proof.
  revert b c. induction a as [|x a IH]; destruct b as [|y b], c as [|z c];
    simpl; auto; try discriminate.
  destruct (Z.ltb_spec y x), (Z.ltb_spec x y), (Z.ltb_spec z y), (Z.ltb_spec y z),
    (Z.ltb_spec z x), (Z.ltb_spec x z); auto; try lia; try discriminate.
  apply IH.
Qed.

Lemma dt_ltb_asym a b : Strptime.dt_ltb a b = true -> Strptime.dt_ltb b a = false.
Proof. apply lex_ltb_asym. Qed.

Lemma dt_le_trans a b c : Strptime.dt_le a b -> Strptime.dt_le b c -> Strptime.dt_le a c.
Proof. unfold Strptime.dt_le, Strptime.dt_ltb. intros. eapply lex_le_trans; eauto. Qed.

(* ------------------------------------------------------------------ *)
(** ** The records built from a hit *)

Lemma run_info_inv src info :
  _run_info_from_es_record src = Ok (VDict info) ->
  exists a b c d,
    subscript src "machine_info" = Ok a /\ subscript src "commit_info" = Ok b /\
    subscript src "datetime" = Ok c /\ subscript src "version" = Ok d /\
    info = [("machine_info", a); ("commit_info", b); ("datetime", c); ("version", d)].
Proof.
  unfold _run_info_from_es_record, run_keys, copy_keys.
  destruct (subscript src "machine_info") as [a|]; simpl; [|discriminate].
  destruct (subscript src "commit_info") as [b|]; simpl; [|discriminate].
  destruct (subscript src "datetime") as [c|]; simpl; [|discriminate].
  destruct (subscript src "version") as [d|]; simpl; [|discriminate].
  intros H. inversion H. exists a, b, c, d. auto.
Qed.

Lemma benchmark_inv src bm :
  _benchmark_from_es_record src = Ok bm ->
  exists g s o p n ps f,
    subscript src "group" = Ok g /\ subscript src "stats" = Ok s /\
    subscript src "options" = Ok o /\ subscript src "param" = Ok p /\
    subscript src "name" = Ok n /\ subscript src "params" = Ok ps /\
    subscript src "fullname" = Ok f /\
    bm = VDict [("group", g); ("stats", s); ("options", o); ("param", p);
                ("name", n); ("params", ps); ("fullname", f)].
Proof.
  unfold _benchmark_from_es_record, benchmark_keys, copy_keys.
  destruct (subscript src "group") as [g|]; simpl; [|discriminate].
  destruct (subscript src "stats") as [s|]; simpl; [|discriminate].
  destruct (subscript src "options") as [o|]; simpl; [|discriminate].
  destruct (subscript src "param") as [p|]; simpl; [|discriminate].
  destruct (subscript src "name") as [n|]; simpl; [|discriminate].
  destruct (subscript src "params") as [ps|]; simpl; [|discriminate].
  destruct (subscript src "fullname") as [f|]; simpl; [|discriminate].
  intros H. inversion H. exists g, s, o, p, n, ps, f. repeat split; reflexivity.
Qed.

(** The run filed under a key, field by field. *)
Lemma run_of_fields k hits :
  Forall (fun x => well_formed x = true) hits ->
  In k (map key_of hits) ->
  exists h0 src a b c d t,
    first_hit k hits = Some h0 /\ subscript h0 "_source" = Ok src /\
    subscript src "machine_info" = Ok a /\ subscript src "commit_info" = Ok b /\
    subscript src "datetime" = Ok c /\ subscript src "version" = Ok d /\
    Strptime.strptime c = Ok t /\
    run_of k hits = VDict [("machine_info", a); ("commit_info", b); ("datetime", c);
                           ("version", d);
                           ("benchmarks", VList (benchmarks_for k hits))].
Proof.
  intros Hwf Hin.
  destruct (first_hit_some k hits Hin) as (h0 & Hf & Hin0 & Hk).
  rewrite Forall_forall in Hwf.
  destruct (well_formed_inv h0 (Hwf _ Hin0))
    as (src & k' & bm & info & t & Hsrc & _ & _ & Hri & _ & _ & Hinfo & Ht).
  destruct (run_info_inv _ _ Hri) as (a & b & c & d & Ha & Hb & Hc & Hd & ->).
  exists h0, src, a, b, c, d, t. repeat split; auto.
  - unfold hit_time in Ht. rewrite Hsrc in Ht. simpl in Ht. rewrite Hc in Ht. exact Ht.
  - unfold run_of. rewrite Hf, Hinfo. reflexivity.
Qed.

(* ------------------------------------------------------------------ *)
(** ** The operations, step by step *)

Section Steps.
Context {Engine Logger : Type}.
Variable transport : value -> api_call -> Engine -> reply * Engine.
Implicit Types st : state Engine Logger.

Lemma search_hits_inv project id_prefix st hits st' :
  search_hits transport project id_prefix st = (Ok hits, st') ->
  exists r hv,
    _search transport project id_prefix st = (Ok r, st') /\
    hits_of r = Ok hv /\ iterate hv = Ok hits.
Proof.
  unfold search_hits, bind, lift.
  destruct (_search transport project id_prefix st) as [[r|e] st1]; [|discriminate].
  destruct (hits_of r) as [hv|] eqn:Hh; simpl; [|discriminate].
  intros H. inversion H; subst. exists r, hv. auto.
Qed.

Lemma grouped_inv project id_prefix st g st' :
  grouped transport project id_prefix st = (Ok g, st') ->
  exists r hv,
    _search transport project id_prefix st = (Ok r, st') /\
    hits_of r = Ok hv /\ _group_by_commit_and_time hv = Ok g.
Proof.
  unfold grouped, bind, lift.
  destruct (_search transport project id_prefix st) as [[r|e] st1]; [|discriminate].
  destruct (hits_of r) as [hv|] eqn:Hh; simpl; [|discriminate].
  intros H. inversion H; subst. exists r, hv. auto.
Qed.

(** [load] once the search has answered and the hits are grouped. *)
Lemma load_of_groups project id_prefix st r hv g st' :
  _search transport project id_prefix st = (Ok r, st') ->
  hits_of r = Ok hv ->
  _group_by_commit_and_time hv = Ok g ->
  load transport project id_prefix st
  = (match Sorting.list_sort Strptime.dt_ltb sort_key g with
     | Ok ys => Done ys
     | Raise e => Broke [] e
     end, st').
Proof.
  intros Hs Hh Hg. unfold load, load_result, bind, lift.
  rewrite Hs, Hh, Hg. destruct (Sorting.list_sort _ _ g); reflexivity.
Qed.

(** [load] on well-formed hits: the runs of [groups], sorted by time. *)
Lemma load_runs project id_prefix st hits st' :
  search_hits transport project id_prefix st = (Ok hits, st') ->
  forallb well_formed hits = true ->
  exists ys,
    load transport project id_prefix st = (Done ys, st') /\
    Permutation ys (groups hits) /\
    exists ts, Forall2 (fun y t => sort_key y = Ok t) ys ts /\
               StronglySorted Strptime.dt_le ts.
Proof.
  intros Hs Hwf. rewrite forallb_forall in Hwf.
  assert (Hall : Forall (fun x => well_formed x = true) hits)
    by now apply Forall_forall.
  destruct (search_hits_inv _ _ _ _ _ Hs) as (r & hv & Hr & Hh & Hit).
  assert (Hg : _group_by_commit_and_time hv = Ok (groups hits)).
  { unfold _group_by_commit_and_time. rewrite Hit. simpl.
    now apply group_loop_groups. }
  rewrite (load_of_groups _ _ _ _ _ _ _ Hr Hh Hg).
  assert (Hkeys : Forall (fun x => is_ok (sort_key x) = true) (groups hits)).
  { apply Forall_forall. intros [k run] Hin. unfold groups in Hin.
    apply in_map_iff in Hin. destruct Hin as (k' & Heq & Hk'). inversion Heq; subst.
    rewrite distinct_In in Hk'.
    destruct (run_of_fields k hits Hall Hk')
      as (h0 & src & a & b & c & d & t & _ & _ & _ & _ & _ & _ & Ht & ->).
    unfold sort_key. simpl. rewrite Ht. reflexivity. }
  destruct (SortingFacts.decorate_ok sort_key _ Hkeys) as [kl Hkl].
  destruct (Sorting.list_sort Strptime.dt_ltb sort_key (groups hits)) as [ys|e] eqn:Hsort.
  - exists ys. split; [reflexivity|].
    apply (SortingFacts.list_sort_spec Strptime.dt_ltb sort_key
             dt_ltb_asym dt_le_trans) in Hsort.
    exact Hsort.
  - unfold Sorting.list_sort in Hsort. rewrite Hkl in Hsort. discriminate.
Qed.
End Steps.

(* ------------------------------------------------------------------ *)
(** ** [load]: grouping and order *)

(** A stored document is a hit that the adapter reads without an error,
    and the key it files the hit under is the composed key. *)
Lemma stored_document_read h :
  stored_document h = true ->
  well_formed h = true /\ key_of h = composed_key h.
Proof.
  unfold stored_document.
  destruct h as [| | | | | | |hd]; try discriminate. cbn [path].
  destruct (getitem hd "_source") as [[| | | | | | |sd]|] eqn:Hsrc; try discriminate.
  cbn [forallb]. unfold contains.
  destruct (getitem sd "machine_info") as [mi|] eqn:Hmi; [|discriminate].
  destruct (getitem sd "commit_info") as [ci|] eqn:Hci; [|discriminate].
  destruct (getitem sd "datetime") as [dt|] eqn:Hdt; [|discriminate].
  destruct (getitem sd "version") as [ver|] eqn:Hver; [|discriminate].
  destruct (getitem sd "group") as [g|] eqn:Hg; [|discriminate].
  destruct (getitem sd "stats") as [st|] eqn:Hst; [|discriminate].
  destruct (getitem sd "options") as [o|] eqn:Ho; [|discriminate].
  destruct (getitem sd "param") as [pa|] eqn:Hpa; [|discriminate].
  destruct (getitem sd "name") as [n|] eqn:Hn; [|discriminate].
  destruct (getitem sd "params") as [ps|] eqn:Hps; [|discriminate].
  destruct (getitem sd "fullname") as [f|] eqn:Hf; [|discriminate].
  destruct ci as [| | | | | | |cd]; try discriminate.
  destruct (getitem cd "id") as [id|] eqn:Hid; [|discriminate].
  destruct (Strptime.strptime dt) as [t|] eqn:Ht; [|discriminate].
  intros _.
  unfold well_formed, key_of, composed_key, hit_key, hit_benchmark, hit_run_info, hit_time,
    commit_and_time, _benchmark_from_es_record, _run_info_from_es_record,
    benchmark_keys, run_keys, copy_keys, subscript.
  cbn [path]. rewrite Hsrc. cbn [rbind path].
  rewrite Hmi, Hci, Hdt, Hver, Hg, Hst, Ho, Hpa, Hn, Hps, Hf. cbn [rbind path].
  rewrite Hid. cbn [rbind]. rewrite Ht. split; reflexivity.
Qed.

Lemma stored_documents_read hits :
  forallb stored_document hits = true ->
  forallb well_formed hits = true /\
  map key_of hits = map composed_key hits /\
  forall k, filter (has_key k) hits
            = filter (fun h => String.eqb (composed_key h) k) hits.
Proof.
  intros H. rewrite forallb_forall in H. split; [|split].
  - apply forallb_forall. intros h Hh. now apply stored_document_read, H.
  - apply map_ext_in. intros h Hh. now apply stored_document_read, H.
  - intros k. apply filter_ext_in. intros h Hh. unfold has_key.
    now rewrite (proj2 (stored_document_read h (H h Hh))).
Qed.

Lemma benchmark_of_is_benchmark h :
  well_formed h = true -> is_benchmark_of h (benchmark_of h).
Proof.
  intros Hwf.
  destruct (well_formed_inv h Hwf) as (src & k & b & info & t & Hsrc & _ & Hb & _ & _ & <- & _).
  destruct (benchmark_inv _ _ Hb) as (g & s & o & p & n & ps & f & H).
  exists src, g, s, o, p, n, ps, f. rewrite Hsrc at 1. tauto.
Qed.

Lemma benchmarks_for_are_benchmarks k hits :
  Forall (fun x => well_formed x = true) hits ->
  Forall2 is_benchmark_of (filter (has_key k) hits) (benchmarks_for k hits).
Proof.
  unfold benchmarks_for. induction 1 as [|h hits Hh _ IH]; simpl; [constructor|].
  destruct (has_key k h); simpl; [|exact IH].
  constructor; [now apply benchmark_of_is_benchmark|exact IH].
Qed.

(** C1.  When the search returns stored documents, iterating [load] ends
    normally and yields one pair per distinct key [str(commit id) ++ "_"
    ++ str(datetime)] of the hits: as many pairs as there are distinct
    keys, no key twice, every hit's key present.  The [benchmarks] list of
    the run yielded under a key holds exactly the benchmark sub-records of
    the hits with that key, in hit order.  The times that [strptime] reads
    from the [datetime] of the yielded runs are in non-decreasing order. *)
Theorem load_groups_and_sorts :
  forall (Engine Logger : Type) (transport : value -> api_call -> Engine -> reply * Engine)
         (project id_prefix : value) (st st' : state Engine Logger) (hits : list value),
    search_hits transport project id_prefix st = (Ok hits, st') ->
    forallb stored_document hits = true ->
    exists ys,
      load transport project id_prefix st = (Done ys, st') /\
      List.length ys = List.length (nodup string_dec (map composed_key hits)) /\
      NoDup (map fst ys) /\
      (forall h, In h hits -> In (composed_key h) (map fst ys)) /\
      (forall k run, In (k, run) ys ->
         In k (map composed_key hits) /\
         exists bs,
           subscript run "benchmarks" = Ok (VList bs) /\
           Forall2 is_benchmark_of
                   (filter (fun h => String.eqb (composed_key h) k) hits) bs) /\
      exists ts,
        Forall2 (fun y t => exists datetime,
                     subscript (snd y) "datetime" = Ok datetime /\
                     Strptime.strptime datetime = Ok t) ys ts /\
        StronglySorted Strptime.dt_le ts.
Proof.
  intros Engine Logger transport project id_prefix st st' hits Hs Hdoc.
  destruct (stored_documents_read hits Hdoc) as (Hwf & Hkeys & Hfilter).
  destruct (load_runs transport _ _ _ _ _ Hs Hwf) as (ys & Hload & Hperm & ts & Hts & Hsorted).
  assert (Hall : Forall (fun x => well_formed x = true) hits)
    by (apply Forall_forall; now apply forallb_forall).
  assert (Hfst : map fst (groups hits) = distinct (map key_of hits)).
  { unfold groups. rewrite map_map. simpl. apply map_id. }
  rewrite <- Hkeys.
  exists ys. split; [exact Hload|]. split; [|split; [|split; [|split]]].
  - rewrite (Permutation_length Hperm). unfold groups.
    rewrite length_map. apply distinct_length.
  - eapply Permutation_NoDup.
    + apply Permutation_sym, Permutation_map, Hperm.
    + rewrite Hfst. apply distinct_NoDup.
  - intros h Hh. rewrite <- (proj2 (stored_document_read h (proj1 (forallb_forall _ _) Hdoc h Hh))).
    eapply Permutation_in.
    + apply Permutation_sym, Permutation_map, Hperm.
    + rewrite Hfst, distinct_In. now apply in_map.
  - intros k run Hin.
    apply (Permutation_in _ Hperm) in Hin. unfold groups in Hin.
    apply in_map_iff in Hin. destruct Hin as (k' & Heq & Hk). inversion Heq; subst.
    rewrite distinct_In in Hk. split; [exact Hk|].
    destruct (run_of_fields k hits Hall Hk)
      as (h0 & src & a & b & c & d & t & _ & _ & _ & _ & _ & _ & _ & ->).
    exists (benchmarks_for k hits). split; [reflexivity|].
    rewrite <- Hfilter. now apply benchmarks_for_are_benchmarks.
  - exists ts. split; [|exact Hsorted].
    clear - Hts. induction Hts as [|y t ys ts Hy _ IH]; constructor; [|exact IH].
    unfold sort_key in Hy.
    destruct (subscript (snd y) "datetime") as [dt|]; simpl in Hy; [|discriminate].
    exists dt. auto.
Qed.

Lemma load_groups_and_sorts_witness :
  exists ys,
    load MemEngine.transport (VStr "p") VNone MemEngine.st3
    = (Done ys, snd (load MemEngine.transport (VStr "p") VNone MemEngine.st3)) /\
    List.length ys = List.length (nodup string_dec (map composed_key MemEngine.db3)) /\
    NoDup (map fst ys) /\
    (forall h, In h MemEngine.db3 -> In (composed_key h) (map fst ys)) /\
    (forall k run, In (k, run) ys ->
       In k (map composed_key MemEngine.db3) /\
       exists bs,
         subscript run "benchmarks" = Ok (VList bs) /\
         Forall2 is_benchmark_of
                 (filter (fun h => String.eqb (composed_key h) k) MemEngine.db3) bs) /\
    exists ts,
      Forall2 (fun y t => exists datetime,
                   subscript (snd y) "datetime" = Ok datetime /\
                   Strptime.strptime datetime = Ok t) ys ts /\
      StronglySorted Strptime.dt_le ts.
Proof.
  apply (load_groups_and_sorts MemEngine.t unit MemEngine.transport
           (VStr "p") VNone MemEngine.st3); reflexivity.
Defined.

(* ------------------------------------------------------------------ *)
(** ** Requests and the state they leave *)

Section Requests.
Context {Engine Logger : Type}.
Variable transport : value -> api_call -> Engine -> reply * Engine.
Implicit Types st : state Engine Logger.

(** A call leaves the object alone, moves the engine by one step and
    adds one entry to the log, whatever the answer. *)
Lemma perform_state c call ignore st :
  snd (perform transport c call ignore st)
  = State (self st) (snd (transport (client_hosts c) call (engine st)))
          (log st ++ [Request call ignore]).
Proof.
  unfold perform. destruct (transport _ call (engine st)) as [[code body|e] eng']; simpl.
  - destruct (_ || _)%bool; reflexivity.
  - reflexivity.
Qed.

Lemma search_state project id_prefix body st :
  search_body project id_prefix = Ok body ->
  snd (_search transport project id_prefix st)
  = State (self st)
          (snd (transport (client_hosts (_elasticsearch (self st)))
                          (Search (_elasticsearch_index (self st))
                                  (_elasticsearch_doctype (self st)) body)
                          (engine st)))
          (log st ++ [search_request st body]).
Proof.
  intros Hb. unfold _search, bind, lift, attr, search_request. rewrite Hb.
  rewrite <- perform_state. reflexivity.
Qed.

Lemma load_state project id_prefix st :
  snd (load transport project id_prefix st)
  = snd (_search transport project id_prefix st).
Proof.
  unfold load, load_result, bind, lift.
  destruct (_search transport project id_prefix st) as [[r|e] st1]; [|reflexivity].
  destruct (hits_of r) as [hv|]; [|reflexivity].
  destruct (_group_by_commit_and_time hv) as [g|]; [|reflexivity].
  destruct (Sorting.list_sort Strptime.dt_ltb sort_key g); reflexivity.
Qed.

Lemma query_state project st :
  snd (query transport project st) = snd (load transport project VNone st).
Proof.
  unfold query. destruct (load transport project VNone st) as [[ys|ys e] st1]; reflexivity.
Qed.

Lemma load_benchmarks_state project st :
  snd (load_benchmarks transport project st)
  = snd (_search transport project VNone st).
Proof.
  unfold load_benchmarks, bind, lift.
  destruct (_search transport project VNone st) as [[r|e] st1]; [|reflexivity].
  destruct (hits_of r) as [hv|]; [|reflexivity].
  destruct (iterate hv); reflexivity.
Qed.

Lemma save_state document document_id st :
  snd (save transport document document_id st)
  = State (self st)
          (snd (transport (client_hosts (_elasticsearch (self st)))
                          (Index (_elasticsearch_index (self st))
                                 (_elasticsearch_doctype (self st))
                                 document document_id)
                          (engine st)))
          (log st ++ [Request (Index (_elasticsearch_index (self st))
                                     (_elasticsearch_doctype (self st))
                                     document document_id) []]).
Proof.
  unfold save, bind, attr, ret.
  rewrite <- perform_state.
  destruct (perform transport _ _ [] st) as [[r|e] st1]; reflexivity.
Qed.

(** The body of a search, in full. *)
Lemma search_body_eq project id_prefix :
  search_body project id_prefix
  = Ok (VDict [("size", VInt 1000);
               ("sort", VList [VDict [("datetime", VDict [("order", VStr "desc")])]]);
               ("query",
                VDict [("bool",
                        VDict (("filter",
                                VDict [("term", VDict [("commit_info.project", project)])])
                                 :: (if truthy id_prefix
                                     then [("must", prefix_clause id_prefix)]
                                     else [])))])]).
Proof.
  unfold search_body. destruct (truthy id_prefix); reflexivity.
Qed.
End Requests.

(* ------------------------------------------------------------------ *)
(** ** [query] *)

(** C2.  From any state, [query(project)] returns the first components of
    the pairs that [load(project)] yields, in the same order, and leaves
    the same state; it raises what [load] raises when [load] does. *)
Theorem query_is_keys_of_load :
  forall (Engine Logger : Type) (transport : value -> api_call -> Engine -> reply * Engine)
         (project : value) (st : state Engine Logger),
    query transport project st
    = (match fst (load transport project VNone st) with
       | Done ys => Ok (map fst ys)
       | Broke _ e => Raise e
       end,
       snd (load transport project VNone st)).
Proof.
  intros. unfold query.
  destruct (load transport project VNone st) as [[ys|ys e] st1]; reflexivity.
Qed.

(* ------------------------------------------------------------------ *)
(** ** The search request *)

(** C3.  [load] sends exactly one search request, whose body asks for 1000
    hits, sorted by [datetime] descending, filtered by the exact term
    [commit_info.project = project]; the body has a [must] clause, the
    prefix clause on [_id], exactly when [id_prefix] is truthy, which for a
    [str] means non-empty and for [None] never.  [query] and
    [load_benchmarks] send exactly one search request of the same shape
    without the clause. *)
Theorem search_request_shape :
  forall (Engine Logger : Type) (transport : value -> api_call -> Engine -> reply * Engine)
         (project id_prefix : value) (st : state Engine Logger),
    (exists body,
        search_body project id_prefix = Ok body /\
        has_search_shape project body /\
        must_clause body
        = (if truthy id_prefix then Some (prefix_clause id_prefix) else None) /\
        log (snd (load transport project id_prefix st))
        = (log st ++ [search_request st body])%list) /\
    (exists body,
        search_body project VNone = Ok body /\
        has_search_shape project body /\
        must_clause body = None /\
        log (snd (query transport project st)) = (log st ++ [search_request st body])%list /\
        log (snd (load_benchmarks transport project st))
        = (log st ++ [search_request st body])%list) /\
    (forall s, truthy (VStr s) = true <-> s <> "") /\
    truthy VNone = false.
Proof.
  intros. split; [|split; [|split]].
  - eexists. split; [apply search_body_eq|].
    split; [repeat split|]. split.
    + unfold must_clause. destruct (truthy id_prefix); reflexivity.
    + rewrite load_state, (search_state transport _ _ _ st (search_body_eq _ _)).
      reflexivity.
  - eexists. split; [apply search_body_eq|].
    split; [repeat split|]. split; [reflexivity|]. split.
    + rewrite query_state, load_state,
        (search_state transport _ _ _ st (search_body_eq _ _)).
      reflexivity.
    + rewrite load_benchmarks_state,
        (search_state transport _ _ _ st (search_body_eq _ _)).
      reflexivity.
  - intros s. simpl. destruct (String.eqb_spec s ""); simpl; split; congruence.
  - reflexivity.
Qed.

(* ------------------------------------------------------------------ *)
(** ** [save] and the object *)

(** C9.  [save(document, document_id)] makes one call, the engine's index
    call, with the configured index and doc-type, the document as given and
    the identifier as given, and no status ignored; the engine moves by
    that call alone.  [save], [query], [load] and [load_benchmarks] leave
    every field of the object as it was, and the constructor leaves
    [_cache] an empty dict. *)
Theorem save_verbatim_and_object_unchanged :
  forall (Engine Logger : Type) (transport : value -> api_call -> Engine -> reply * Engine)
         (document document_id project id_prefix : value) (st : state Engine Logger)
         (import_elasticsearch : result unit)
         (hosts index doc_type machine_id : value) (lg : Logger)
         (eng : Engine) (log0 : list request),
    let sent := Index (_elasticsearch_index (self st)) (_elasticsearch_doctype (self st))
                      document document_id in
    log (snd (save transport document document_id st)) = (log st ++ [Request sent []])%list /\
    engine (snd (save transport document document_id st))
    = snd (transport (client_hosts (_elasticsearch (self st))) sent (engine st)) /\
    self (snd (save transport document document_id st)) = self st /\
    self (snd (query transport project st)) = self st /\
    self (snd (load transport project id_prefix st)) = self st /\
    self (snd (load_benchmarks transport project st)) = self st /\
    match __init__ transport import_elasticsearch hosts index doc_type lg machine_id eng log0 with
    | (Ok obj, _, _) => _cache obj = VDict []
    | (Raise _, _, _) => True
    end.
Proof.
  intros. subst sent.
  rewrite save_state, query_state, !load_state, load_benchmarks_state.
  rewrite !(search_state transport _ _ _ st (search_body_eq _ _)). simpl.
  repeat split.
  unfold __init__. destruct import_elasticsearch as [u|exc].
  - match goal with
    | |- context [_create_index transport ?s] =>
        destruct (_create_index transport s) as [[u'|e] st1] eqn:Hc
    end; [|exact I].
    unfold _create_index, bind, attr, ret in Hc. simpl in Hc.
    match type of Hc with
    | context [perform transport ?c ?call ?ig ?s] =>
        pose proof (perform_state transport c call ig s) as Hp;
        destruct (perform transport c call ig s) as [[r|e] st2]
    end; [|discriminate].
    inversion Hc; subst. simpl in Hp. rewrite Hp. reflexivity.
  - destruct (is_import_error (exn_cls exc)); exact I.
Qed.

(* ------------------------------------------------------------------ *)
(** ** Construction *)

Section Construction.
Context {Engine Logger : Type}.
Variable transport : value -> api_call -> Engine -> reply * Engine.
Implicit Types st : state Engine Logger.

Lemma create_index_result st :
  fst (_create_index transport st)
  = create_outcome
      (fst (transport (client_hosts (_elasticsearch (self st)))
                      (IndicesCreate (_elasticsearch_index (self st)) mapping)
                      (engine st))).
Proof.
  unfold _create_index, bind, attr, ret, perform, create_outcome.
  destruct (transport _ _ (engine st)) as [[code body|e] eng']; simpl; [|reflexivity].
  rewrite orb_false_r.
  destruct ((200 <=? code) && (code <? 300) || (code =? 400))%Z%bool; reflexivity.
Qed.

Lemma create_index_state st :
  snd (_create_index transport st)
  = State (self st)
          (snd (transport (client_hosts (_elasticsearch (self st)))
                          (IndicesCreate (_elasticsearch_index (self st)) mapping)
                          (engine st)))
          (log st ++ [Request (IndicesCreate (_elasticsearch_index (self st)) mapping)
                              [400%Z]]).
Proof.
  unfold _create_index, bind, attr, ret.
  rewrite <- perform_state.
  destruct (perform transport _ _ [400%Z] st) as [[r|e] st1]; reflexivity.
Qed.
End Construction.

(** C7, as the code has it.  [_create_index] makes one call, the creation
    of the configured index with the mapping and [ignore=400].  It returns
    normally when the answer has a 2xx status or status 400, whatever the
    reason for the 400, the index existing already included (as the
    in-memory engine answers); it raises the
    client's error for an answer with any other status, and the connection
    error when there is no answer.  The constructor, once the import has
    succeeded, returns the object or raises accordingly. *)
Theorem create_index_ignores_status_400 :
  forall (Engine Logger : Type) (transport : value -> api_call -> Engine -> reply * Engine)
         (st : state Engine Logger)
         (hosts index doc_type machine_id : value) (lg : Logger)
         (eng : Engine) (log0 : list request),
    fst (_create_index transport st)
    = create_outcome
        (fst (transport (client_hosts (_elasticsearch (self st)))
                        (IndicesCreate (_elasticsearch_index (self st)) mapping)
                        (engine st))) /\
    log (snd (_create_index transport st))
    = (log st ++ [Request (IndicesCreate (_elasticsearch_index (self st)) mapping)
                          [400%Z]])%list /\
    (forall body, create_outcome (Status 400 body) = Ok tt) /\
    fst (_create_index MemEngine.transport MemEngine.st3) = Ok tt /\
    fst (fst (__init__ transport (Ok tt) hosts index doc_type lg machine_id eng log0))
    = match create_outcome (fst (transport hosts (IndicesCreate index mapping) eng)) with
      | Ok _ => Ok (Storage hosts index doc_type (Elasticsearch hosts) machine_id lg (VDict []))
      | Raise e => Raise e
      end.
Proof.
  intros. split; [apply create_index_result|].
  split; [now rewrite create_index_state|].
  split; [reflexivity|]. split; [reflexivity|].
  - unfold __init__.
    match goal with
    | |- context [_create_index transport ?s] =>
        pose proof (create_index_result transport s) as Hr;
        pose proof (create_index_state transport s) as Hs;
        destruct (_create_index transport s) as [[u|e] st1]
    end; simpl in *; rewrite <- Hr; [rewrite Hs|]; reflexivity.
Qed.

(** C7, as the claim has it, fails: an engine that refuses the mapping
    answers the creation with status 400 and an error that is not "already
    exists"; [_create_index] does not raise, and the constructor returns an
    object although no index was created. *)
Lemma create_index_swallows_refusal :
  fst (RejectingEngine.transport (VStr "localhost")
         (IndicesCreate (VStr "benchmark") mapping) tt)
  = Status 400 RejectingEngine.refusal /\
  already_exists RejectingEngine.refusal = false /\
  ~ (exists e, fst (_create_index RejectingEngine.transport RejectingEngine.st0) = Raise e) /\
  ~ (exists e, fst (fst (__init__ RejectingEngine.transport (Ok tt)
                           (VStr "localhost") (VStr "benchmark") (VStr "benchmark")
                           tt VNone tt [])) = Raise e).
Proof.
  repeat split; try reflexivity; intros [e He]; vm_compute in He; discriminate.
Qed.

(** C8.  When [import elasticsearch] raises an [ImportError], the
    constructor raises an [ImportError] whose arguments are the arguments
    of the original error and the install hint; no object is returned, the
    engine is as it was and no request has been sent. *)
Theorem init_without_client_library :
  forall (Engine Logger : Type) (transport : value -> api_call -> Engine -> reply * Engine)
         (exc : exn) (hosts index doc_type machine_id : value) (lg : Logger)
         (eng : Engine) (log0 : list request),
    is_import_error (exn_cls exc) = true ->
    __init__ transport (Raise exc) hosts index doc_type lg machine_id eng log0
    = (Raise (Exn ImportError
                  [VTuple (exn_args exc);
                   VStr "Please install elasticsearch or pytest-benchmark[elasticsearch]"]),
       eng, log0).
Proof.
  intros. unfold __init__. rewrite H. reflexivity.
Qed.

Lemma init_without_client_library_witness :
  __init__ MemEngine.transport
           (Raise (Exn ImportError [VStr "No module named 'elasticsearch'"]))
           (VList [VStr "localhost:9200"]) (VStr "benchmark") (VStr "benchmark") tt VNone
           MemEngine.db3 []
  = (Raise (Exn ImportError
                [VTuple [VStr "No module named 'elasticsearch'"];
                 VStr "Please install elasticsearch or pytest-benchmark[elasticsearch]"]),
     MemEngine.db3, []).
Proof.
  apply (init_without_client_library MemEngine.t unit MemEngine.transport
           (Exn ImportError [VStr "No module named 'elasticsearch'"])).
  reflexivity.
Defined.

(* ------------------------------------------------------------------ *)
(** ** [load] with an identifier prefix *)

Section Prefix.
Context {Engine Logger : Type}.
Variable transport : value -> api_call -> Engine -> reply * Engine.
Implicit Types st : state Engine Logger.

Lemma search_ok_inv project id_prefix st r st' :
  _search transport project id_prefix st = (Ok r, st') ->
  exists body code,
    search_body project id_prefix = Ok body /\
    fst (transport (client_hosts (_elasticsearch (self st)))
                   (Search (_elasticsearch_index (self st))
                           (_elasticsearch_doctype (self st)) body)
                   (engine st))
    = Status code r.
Proof.
  unfold _search, bind, lift, attr, perform. rewrite search_body_eq.
  destruct (transport _ _ (engine st)) as [[code body|e] eng'] eqn:Ht; simpl.
  - destruct (_ || _)%bool; intros H; inversion H; subst.
    do 2 eexists. split; [reflexivity|]. rewrite Ht. reflexivity.
  - discriminate.
Qed.

(** What [load] yields comes out of the grouping of the hits found. *)
Lemma load_yields_groups project id_prefix st k run :
  In (k, run) (yielded (fst (load transport project id_prefix st))) ->
  exists r hits g,
    _search transport project id_prefix st
    = (Ok r, snd (_search transport project id_prefix st)) /\
    (hv <- hits_of r ;; iterate hv) = Ok hits /\
    _group_by_commit_and_time (VList hits) = Ok g /\
    In (k, run) g.
Proof.
  unfold load, load_result, bind, lift.
  destruct (_search transport project id_prefix st) as [[r|e] st1]; simpl; [|tauto].
  destruct (hits_of r) as [hv|] eqn:Hh; simpl; [|tauto].
  destruct (_group_by_commit_and_time hv) as [g|] eqn:Hg; simpl; [|tauto].
  destruct (Sorting.list_sort Strptime.dt_ltb sort_key g) as [ys|] eqn:Hs; simpl; [|tauto].
  intros Hin.
  apply (SortingFacts.list_sort_spec Strptime.dt_ltb sort_key
           dt_ltb_asym dt_le_trans) in Hs.
  destruct Hs as [Hperm _].
  unfold _group_by_commit_and_time in Hg.
  destruct (iterate hv) as [hits|] eqn:Hit; simpl in Hg; [|discriminate].
  exists r, hits, g. split; [reflexivity|]. split; [rewrite Hh; exact Hit|]. split; [exact Hg|].
  eapply Permutation_in; eauto.
Qed.
End Prefix.

(** C4.  With the empty string for [id_prefix], [load] does exactly what
    it does with [None], for every project, engine and state.  Over an
    engine that applies the prefix clause, every pair that
    [load(project, id_prefix)] yields for a non-empty [id_prefix] is an
    entry of the grouping of hits that are all stored under identifiers
    starting with [id_prefix]. *)
Theorem load_with_id_prefix :
  forall (Engine Logger : Type) (transport : value -> api_call -> Engine -> reply * Engine)
         (project : value) (st : state Engine Logger),
    load transport project (VStr "") st = load transport project VNone st /\
    forall (p k : string) (run : value),
      honours_prefix transport ->
      p <> "" ->
      In (k, run) (yielded (fst (load transport project (VStr p) st))) ->
      exists hits g,
        fst (search_hits transport project (VStr p) st) = Ok hits /\
        forallb (id_starts_with p) hits = true /\
        _group_by_commit_and_time (VList hits) = Ok g /\
        In (k, run) g.
Proof.
  intros Engine Logger transport project st.
  split; [reflexivity|].
  intros p k run Hhon Hp Hin.
  destruct (load_yields_groups transport _ _ _ _ _ Hin) as (r & hits & g & Hs & Hh & Hg & Hg').
  exists hits, g. repeat split; auto.
  - unfold search_hits, bind, lift. rewrite Hs. simpl. exact Hh.
  - destruct (search_ok_inv transport _ _ _ _ _ Hs) as (body & code & Hb & Hrep).
    rewrite search_body_eq in Hb. inversion Hb; subst body; clear Hb.
    match type of Hrep with
    | fst ?t = _ => pose proof (surjective_pairing t) as Hsp
    end.
    rewrite Hrep in Hsp.
    eapply Hhon; [exact Hsp | | exact Hh].
    destruct (String.eqb_spec p ""); [contradiction|reflexivity].
Qed.

Lemma in_firstn {A} (x : A) n l : In x (firstn n l) -> In x l.
Proof.
  revert l. induction n as [|n IH]; intros [|y l]; simpl; try tauto.
  intros [->|H]; auto.
Qed.

Lemma mem_engine_honours_prefix : honours_prefix MemEngine.transport.
Proof.
  intros hosts index doc_type body db code resp db' p hits Hrep Hp Hh.
  simpl in Hrep. inversion Hrep as [[Hcode Hresp Hdb]]. subst resp.
  simpl in Hh. inversion Hh as [Hhits].
  apply forallb_forall. intros h Hin.
  apply in_firstn, filter_In in Hin. destruct Hin as [_ Hsel].
  unfold MemEngine.selected in Hsel. rewrite Hp in Hsel.
  apply andb_true_iff in Hsel. destruct Hsel as [_ Hsel].
  unfold id_starts_with. destruct (path h ["_id"]) as [[]|]; auto.
Qed.

Lemma load_with_id_prefix_witness :
  load MemEngine.transport (VStr "p") (VStr "") MemEngine.st3
  = load MemEngine.transport (VStr "p") VNone MemEngine.st3 /\
  exists hits g,
    fst (search_hits MemEngine.transport (VStr "p") (VStr "abc123_0002") MemEngine.st3)
    = Ok hits /\
    forallb (id_starts_with "abc123_0002") hits = true /\
    _group_by_commit_and_time (VList hits) = Ok g /\
    In MemEngine.first_run g.
Proof.
  destruct (load_with_id_prefix MemEngine.t unit MemEngine.transport
              (VStr "p") MemEngine.st3) as [Hsame Hprefix].
  split; [exact Hsame|].
  apply (Hprefix "abc123_0002" (fst MemEngine.first_run) (snd MemEngine.first_run)).
  - exact mem_engine_honours_prefix.
  - discriminate.
  - simpl. left. reflexivity.
Defined.

(** The same on an engine where no search finds anything. *)
Example load_with_empty_prefix_on_a_refusing_engine :
  load RejectingEngine.transport (VStr "p") (VStr "") RejectingEngine.st0
  = load RejectingEngine.transport (VStr "p") VNone RejectingEngine.st0.
Proof. reflexivity. Qed.

(* ------------------------------------------------------------------ *)
(** ** [load_benchmarks] *)

Lemma carries_benchmark_inv hit :
  carries_benchmark hit = true ->
  exists bm, hit_benchmark hit = Ok bm /\ is_benchmark_of hit bm.
Proof.
  unfold carries_benchmark, hit_benchmark, is_benchmark_of.
  destruct (subscript hit "_source") as [[| | | | | | |source]|] eqn:Hsrc; try discriminate.
  unfold benchmark_keys, contains. simpl forallb.
  destruct (getitem source "group") as [g|] eqn:Hg; [|discriminate].
  destruct (getitem source "stats") as [s|] eqn:Hs; [|discriminate].
  destruct (getitem source "options") as [o|] eqn:Ho; [|discriminate].
  destruct (getitem source "param") as [p|] eqn:Hp; [|discriminate].
  destruct (getitem source "name") as [n|] eqn:Hn; [|discriminate].
  destruct (getitem source "params") as [ps|] eqn:Hps; [|discriminate].
  destruct (getitem source "fullname") as [f|] eqn:Hf; [|discriminate].
  intros _. eexists. split.
  - simpl. unfold _benchmark_from_es_record, benchmark_keys, copy_keys, subscript.
    rewrite Hg, Hs, Ho, Hp, Hn, Hps, Hf. simpl. reflexivity.
  - exists (VDict source), g, s, o, p, n, ps, f. unfold subscript.
    rewrite Hg, Hs, Ho, Hp, Hn, Hps, Hf. repeat split; reflexivity.
Qed.

Lemma yield_benchmarks_all hits :
  forallb carries_benchmark hits = true ->
  exists ys, yield_benchmarks hits = Done ys /\ Forall2 is_benchmark_of hits ys.
Proof.
  induction hits as [|hit hits IH]; simpl; intros H.
  - exists []. split; [reflexivity|constructor].
  - apply andb_true_iff in H. destruct H as [Hhit Hrest].
    destruct (IH Hrest) as (ys & Hys & Hall).
    destruct (carries_benchmark_inv hit Hhit) as (bm & Hbm & His).
    unfold hit_benchmark in Hbm. rewrite Hbm, Hys. simpl.
    exists (bm :: ys). split; [reflexivity|]. constructor; assumption.
Qed.

(** C5.  When the search returns hits that each carry the seven benchmark
    fields, iterating [load_benchmarks] ends normally and yields one record
    per hit, in the order of the hits; the record of a hit is a dict of
    exactly the fields [group], [stats], [options], [param], [name],
    [params], [fullname], each with the value the hit's [_source] has. *)
Theorem load_benchmarks_one_per_hit :
  forall (Engine Logger : Type) (transport : value -> api_call -> Engine -> reply * Engine)
         (project : value) (st st' : state Engine Logger) (hits : list value),
    search_hits transport project VNone st = (Ok hits, st') ->
    forallb carries_benchmark hits = true ->
    exists ys,
      load_benchmarks transport project st = (Done ys, st') /\
      Forall2 is_benchmark_of hits ys.
Proof.
  intros Engine Logger transport project st st' hits Hs Hc.
  destruct (search_hits_inv transport _ _ _ _ _ Hs) as (r & hv & Hr & Hh & Hit).
  destruct (yield_benchmarks_all hits Hc) as (ys & Hys & Hall).
  exists ys. split; [|exact Hall].
  unfold load_benchmarks, bind, lift. rewrite Hr, Hh, Hit, Hys. reflexivity.
Qed.

Lemma load_benchmarks_one_per_hit_witness :
  exists ys,
    load_benchmarks MemEngine.transport (VStr "p") MemEngine.st3
    = (Done ys, snd (load_benchmarks MemEngine.transport (VStr "p") MemEngine.st3)) /\
    Forall2 is_benchmark_of MemEngine.db3 ys.
Proof.
  apply (load_benchmarks_one_per_hit MemEngine.t unit MemEngine.transport
           (VStr "p") MemEngine.st3); reflexivity.
Defined.

(* ------------------------------------------------------------------ *)
(** ** [load] on a timestamp that does not parse *)

Lemma strptime_needs_format s :
  Strptime.matches_format s = false -> is_ok (Strptime.strptime (VStr s)) = false.
Proof.
  unfold Strptime.matches_format, Strptime.strptime.
  destruct (Strptime.scan s) as [[[|c rest] caps]|]; auto. discriminate.
Qed.

(** C6.  When the search has answered and the hits are grouped, and one
    run's [datetime] is a string that does not match the format, iterating
    [load] yields nothing and ends with an exception, the one that the
    computation of the sort keys raises. *)
Theorem load_raises_on_malformed_datetime :
  forall (Engine Logger : Type) (transport : value -> api_call -> Engine -> reply * Engine)
         (project id_prefix : value) (st st' : state Engine Logger)
         (g : dict) (k : string) (run : value) (s : string),
    grouped transport project id_prefix st = (Ok g, st') ->
    In (k, run) g ->
    subscript run "datetime" = Ok (VStr s) ->
    Strptime.matches_format s = false ->
    exists e,
      load transport project id_prefix st = (Broke [] e, st') /\
      Sorting.decorate sort_key g = Raise e.
Proof.
  intros Engine Logger transport project id_prefix st st' g k run s Hg Hin Hdt Hfmt.
  destruct (grouped_inv transport _ _ _ _ _ Hg) as (r & hv & Hr & Hh & Hgr).
  assert (Hex : Exists (fun x => is_ok (sort_key x) = false) g).
  { apply Exists_exists. exists (k, run). split; [exact Hin|].
    unfold sort_key. simpl. rewrite Hdt. simpl. now apply strptime_needs_format. }
  destruct (SortingFacts.decorate_raise sort_key g Hex) as [e He].
  exists e. split; [|exact He].
  rewrite (load_of_groups transport _ _ _ _ _ _ _ Hr Hh Hgr).
  unfold Sorting.list_sort. rewrite He. reflexivity.
Qed.

Lemma load_raises_on_malformed_datetime_witness :
  exists e,
    load MemEngine.transport (VStr "p") VNone MemEngine.st_bad
    = (Broke [] e, snd (grouped MemEngine.transport (VStr "p") VNone MemEngine.st_bad)) /\
    Sorting.decorate sort_key
      (groups MemEngine.db_bad) = Raise e.
Proof.
  apply (load_raises_on_malformed_datetime MemEngine.t unit MemEngine.transport
           (VStr "p") VNone MemEngine.st_bad _ (groups MemEngine.db_bad)
           (fst bad_run) (snd bad_run) "2020-01-03 00:00:00").
  - reflexivity.
  - simpl. left. reflexivity.
  - reflexivity.
  - reflexivity.
Defined.

(* ------------------------------------------------------------------ *)
(** ** The run information of a merged run *)

(** C10.  When the search returns well-formed hits, the run that [load]
    yields under a key has the [machine_info], [commit_info], [datetime]
    and [version] of the first hit with that key, in the order of the
    hits, and nothing of the later hits with that key but their benchmark
    sub-records. *)
Theorem run_info_from_first_hit :
  forall (Engine Logger : Type) (transport : value -> api_call -> Engine -> reply * Engine)
         (project id_prefix : value) (st st' : state Engine Logger) (hits : list value)
         (k : string) (run : value),
    search_hits transport project id_prefix st = (Ok hits, st') ->
    forallb well_formed hits = true ->
    In (k, run) (yielded (fst (load transport project id_prefix st))) ->
    exists h0 source a b c d,
      first_hit k hits = Some h0 /\ subscript h0 "_source" = Ok source /\
      subscript source "machine_info" = Ok a /\ subscript source "commit_info" = Ok b /\
      subscript source "datetime" = Ok c /\ subscript source "version" = Ok d /\
      run = VDict [("machine_info", a); ("commit_info", b); ("datetime", c);
                   ("version", d);
                   ("benchmarks", VList (benchmarks_for k hits))].
Proof.
  intros Engine Logger transport project id_prefix st st' hits k run Hs Hwf Hin.
  destruct (load_runs transport _ _ _ _ _ Hs Hwf) as (ys & Hload & Hperm & _).
  rewrite Hload in Hin. simpl in Hin.
  assert (Hall : Forall (fun x => well_formed x = true) hits)
    by (apply Forall_forall; now apply forallb_forall).
  apply (Permutation_in _ Hperm) in Hin. unfold groups in Hin.
  apply in_map_iff in Hin. destruct Hin as (k' & Heq & Hk). inversion Heq; subst.
  rewrite distinct_In in Hk.
  destruct (run_of_fields k hits Hall Hk)
    as (h0 & src & a & b & c & d & t & Hf & Hsrc & Ha & Hb & Hc & Hd & _ & Hrun).
  exists h0, src, a, b, c, d. repeat split; assumption.
Qed.

Lemma run_info_from_first_hit_witness :
  exists h0 source a b c d,
    first_hit (fst MemEngine.first_run) MemEngine.db3 = Some h0 /\
    subscript h0 "_source" = Ok source /\
    subscript source "machine_info" = Ok a /\ subscript source "commit_info" = Ok b /\
    subscript source "datetime" = Ok c /\ subscript source "version" = Ok d /\
    snd MemEngine.first_run
    = VDict [("machine_info", a); ("commit_info", b); ("datetime", c);
             ("version", d);
             ("benchmarks", VList (benchmarks_for (fst MemEngine.first_run) MemEngine.db3))].
Proof.
  apply (run_info_from_first_hit MemEngine.t unit MemEngine.transport
           (VStr "p") VNone MemEngine.st3
           (snd (load MemEngine.transport (VStr "p") VNone MemEngine.st3))).
  - reflexivity.
  - reflexivity.
  - simpl. left. reflexivity.
Defined.

(** The two hits of [MemEngine.db3] under the first key differ in
    [version]; the run has the version of the first. *)
Example later_version_is_dropped :
  map (fun h => path h ["_source"; "version"])
      (filter (has_key (fst MemEngine.first_run)) MemEngine.db3)
  = [Some (VStr "3.1"); Some (VStr "3.0")] /\
  path (snd MemEngine.first_run) ["version"] = Some (VStr "3.1").
Proof. split; reflexivity. Qed.

(* ------------------------------------------------------------------ *)
(** ** The adapter at work *)

(** Two runs, the earlier first; the third document joins the run of
    January 1st. *)
Example query_two_runs :
  fst (query MemEngine.transport (VStr "p") MemEngine.st3)
  = Ok ["abc123_2020-01-01T00:00:00.000000"; "abc123_2020-01-02T00:00:00.000000"] /\
  map (fun y => option_map (fun bs => match bs with VList l => List.length l | _ => O end)
                           (path (snd y) ["benchmarks"]))
      (yielded (fst (load MemEngine.transport (VStr "p") VNone MemEngine.st3)))
  = [Some 2%nat; Some 1%nat].
Proof. split; reflexivity. Qed.

(** A document saved is a run loaded. *)
Example save_then_query :
  let doc := MemEngine.document "def456" "2020-01-03T00:00:00.000000" "test_c" "3.2" in
  let st1 := snd (save MemEngine.transport doc (VStr "def456_0003_c") MemEngine.st3) in
  fst (query MemEngine.transport (VStr "p") st1)
  = Ok ["abc123_2020-01-01T00:00:00.000000"; "abc123_2020-01-02T00:00:00.000000";
        "def456_2020-01-03T00:00:00.000000"].
Proof. reflexivity. Qed.

(** The format at its edges: one-digit fields and a lower-case [t] pass; a
    seventh digit of the fraction, a day the month does not have and a
    leap second do not. *)
Example strptime_edges :
  map (fun s => is_ok (Strptime.strptime (VStr s)))
      ["2020-01-02T03:04:05.123456"; "2020-1-2t3:4:5.1";
       "2020-01-02T03:04:05.1234567"; "2020-02-30T03:04:05.0";
       "2020-12-31T23:59:60.0"; "2020-01-02 03:04:05.0"; "2020-01-02T03:04:05"]
  = [true; true; false; false; false; false; false].
Proof. reflexivity. Qed.

(** A key is [str(id)], an underscore and [str(datetime)], whatever the
    identifier is. *)
Example key_of_numeric_commit :
  commit_and_time (VDict [("commit_info", VDict [("id", VInt 42)]);
                          ("datetime", VStr MemEngine.jan1)])
  = Ok "42_2020-01-01T00:00:00.000000".
Proof. reflexivity. Qed.

(** A hit without [params] ends [load_benchmarks] where it stands. *)
Example load_benchmarks_breaks_on_missing_field :
  yield_benchmarks
    [MemEngine.hit "a" (MemEngine.document "abc123" MemEngine.jan1 "test_a" "3.0");
     MemEngine.hit "b" (VDict [("group", VNone); ("stats", VNone); ("options", VNone);
                               ("param", VNone); ("name", VStr "test_b")])]
  = Broke [VDict [("group", VNone);
                  ("stats", VDict [("rounds", VInt 5); ("mean", VFloat "0.25")]);
                  ("options", VDict [("disable_gc", VBool false)]);
                  ("param", VNone); ("name", VStr "test_a"); ("params", VNone);
                  ("fullname", VStr "tests/test_x.py::test_a")]]
          (Exn KeyError [VStr "params"]).
Proof. reflexivity. Qed.

(* ------------------------------------------------------------------ *)
(** ** Copying fields out of a hit *)

Lemma copy_keys_spec keys src acc :
  copy_keys keys (VDict src) acc
  = match first_missing keys src with
    | Some k => Raise (Exn KeyError [VStr k])
    | None => Ok (fold_left (fun a k => setitem a k (lookup_or_none src k)) keys acc)
    end.
Proof.
  revert acc. unfold first_missing.
  induction keys as [|k keys IH]; intros acc; simpl; [reflexivity|].
  unfold contains, lookup_or_none. destruct (getitem src k) as [v|]; simpl.
  - apply IH.
  - reflexivity.
Qed.

(** X1.  On a dict, [_benchmark_from_es_record] and
    [_run_info_from_es_record] raise [KeyError] for the first of their
    fields, in the order they copy them, that the dict lacks; when none is
    missing they return exactly their fields, in that order, each with the
    value the dict has, and nothing else of the dict. *)
Theorem record_copy_or_first_missing_key :
  forall source : dict,
    _benchmark_from_es_record (VDict source)
    = match first_missing benchmark_keys source with
      | Some k => Raise (Exn KeyError [VStr k])
      | None => Ok (VDict (map (fun k => (k, lookup_or_none source k)) benchmark_keys))
      end /\
    _run_info_from_es_record (VDict source)
    = match first_missing run_keys source with
      | Some k => Raise (Exn KeyError [VStr k])
      | None => Ok (VDict (map (fun k => (k, lookup_or_none source k)) run_keys))
      end.
Proof.
  intros source. unfold _benchmark_from_es_record, _run_info_from_es_record.
  rewrite !copy_keys_spec.
  split.
  - destruct (first_missing benchmark_keys source); reflexivity.
  - destruct (first_missing run_keys source); reflexivity.
Qed.

(* ------------------------------------------------------------------ *)
(** ** When the engine fails or answers out of shape *)

Section Failures.
Context {Engine Logger : Type}.
Variable transport : value -> api_call -> Engine -> reply * Engine.
Implicit Types st : state Engine Logger.

Lemma perform_result c call st :
  fst (perform transport c call [] st)
  = reply_outcome (fst (transport (client_hosts c) call (engine st))).
Proof.
  unfold perform, reply_outcome.
  destruct (transport (client_hosts c) call (engine st)) as [[code body|e] eng']; simpl.
  - rewrite orb_false_r. destruct ((200 <=? code) && (code <? 300))%Z%bool; reflexivity.
  - reflexivity.
Qed.

Lemma search_result project id_prefix body st :
  search_body project id_prefix = Ok body ->
  fst (_search transport project id_prefix st)
  = reply_outcome
      (fst (transport (client_hosts (_elasticsearch (self st)))
                      (Search (_elasticsearch_index (self st))
                              (_elasticsearch_doctype (self st)) body)
                      (engine st))).
Proof.
  intros Hb. unfold _search, bind, lift, attr. rewrite Hb.
  apply perform_result.
Qed.

(** [load] when the search itself raises. *)
Lemma load_of_failed_search project id_prefix st e :
  fst (_search transport project id_prefix st) = Raise e ->
  load transport project id_prefix st
  = (Broke [] e, snd (_search transport project id_prefix st)).
Proof.
  unfold load, load_result, bind.
  destruct (_search transport project id_prefix st) as [[r|e'] st1]; simpl;
    intros H; inversion H; reflexivity.
Qed.

Lemma load_benchmarks_of_failed_search project st e :
  fst (_search transport project VNone st) = Raise e ->
  load_benchmarks transport project st
  = (Broke [] e, snd (_search transport project VNone st)).
Proof.
  unfold load_benchmarks, bind.
  destruct (_search transport project VNone st) as [[r|e'] st1]; simpl;
    intros H; inversion H; reflexivity.
Qed.

(** The operations when the search has answered. *)
Lemma load_benchmarks_of_answer project st r st' :
  _search transport project VNone st = (Ok r, st') ->
  load_benchmarks transport project st
  = (match (hv <- hits_of r ;; iterate hv) with
     | Ok hits => yield_benchmarks hits
     | Raise e => Broke [] e
     end, st').
Proof.
  intros Hs. unfold load_benchmarks, bind, lift. rewrite Hs.
  destruct (hits_of r) as [hv|]; simpl; [|reflexivity].
  destruct (iterate hv); reflexivity.
Qed.

Lemma load_of_answer project id_prefix st r st' :
  _search transport project id_prefix st = (Ok r, st') ->
  load transport project id_prefix st
  = (match (hv <- hits_of r ;; g <- _group_by_commit_and_time hv ;;
            Sorting.list_sort Strptime.dt_ltb sort_key g) with
     | Ok ys => Done ys
     | Raise e => Broke [] e
     end, st').
Proof.
  intros Hs. unfold load, load_result, bind, lift. rewrite Hs.
  destruct (hits_of r) as [hv|]; simpl; [|reflexivity].
  destruct (_group_by_commit_and_time hv) as [g|]; simpl; [|reflexivity].
  destruct (Sorting.list_sort Strptime.dt_ltb sort_key g); reflexivity.
Qed.
End Failures.

(** X2.  When the engine's answer to the search of [load] is no answer at
    all, or has a status outside 2xx, iterating [load] yields nothing and
    ends with the client's exception (the connection error as it is, or
    the transport error with the status and the body); one call has been
    made on the client and the object is as it was. *)
Theorem load_propagates_engine_failure :
  forall (Engine Logger : Type) (transport : value -> api_call -> Engine -> reply * Engine)
         (project id_prefix body : value) (st : state Engine Logger)
         (rep : reply) (eng' : Engine) (e : exn),
    search_body project id_prefix = Ok body ->
    transport (client_hosts (_elasticsearch (self st)))
              (Search (_elasticsearch_index (self st)) (_elasticsearch_doctype (self st)) body)
              (engine st) = (rep, eng') ->
    reply_outcome rep = Raise e ->
    load transport project id_prefix st
    = (Broke [] e, State (self st) eng' (log st ++ [search_request st body])).
Proof.
  intros Engine Logger transport project id_prefix body st rep eng' e Hb Ht He.
  rewrite load_of_failed_search with (e := e).
  - rewrite (search_state transport _ _ _ st Hb), Ht. reflexivity.
  - rewrite (search_result transport _ _ _ st Hb), Ht. exact He.
Qed.

Lemma load_propagates_engine_failure_witness :
  load RejectingEngine.transport (VStr "p") (VStr "abc") RejectingEngine.st0
  = (Broke []
       (Exn TransportError
            [VInt 404;
             VDict [("error", VDict [("type", VStr "index_not_found_exception")]);
                    ("status", VInt 404)]]),
     State (self RejectingEngine.st0) tt
           (log RejectingEngine.st0
            ++ [search_request RejectingEngine.st0
                  (VDict [("size", VInt 1000);
                          ("sort", VList [VDict [("datetime", VDict [("order", VStr "desc")])]]);
                          ("query",
                           VDict [("bool",
                                   VDict [("filter",
                                           VDict [("term",
                                                   VDict [("commit_info.project", VStr "p")])]);
                                          ("must", prefix_clause (VStr "abc"))])])])])).
Proof.
  apply (load_propagates_engine_failure unit unit RejectingEngine.transport
           (VStr "p") (VStr "abc") _ RejectingEngine.st0
           (Status 404 (VDict [("error", VDict [("type", VStr "index_not_found_exception")]);
                               ("status", VInt 404)])) tt);
    reflexivity.
Defined.

(** X3.  In the same two cases [query] raises the client's exception and
    iterating [load_benchmarks] yields nothing and ends with it. *)
Theorem query_and_load_benchmarks_propagate_engine_failure :
  forall (Engine Logger : Type) (transport : value -> api_call -> Engine -> reply * Engine)
         (project body : value) (st : state Engine Logger)
         (rep : reply) (eng' : Engine) (e : exn),
    search_body project VNone = Ok body ->
    transport (client_hosts (_elasticsearch (self st)))
              (Search (_elasticsearch_index (self st)) (_elasticsearch_doctype (self st)) body)
              (engine st) = (rep, eng') ->
    reply_outcome rep = Raise e ->
    query transport project st
    = (Raise e, State (self st) eng' (log st ++ [search_request st body])) /\
    load_benchmarks transport project st
    = (Broke [] e, State (self st) eng' (log st ++ [search_request st body])).
Proof.
  intros Engine Logger transport project body st rep eng' e Hb Ht He.
  assert (Hr : fst (_search transport project VNone st) = Raise e)
    by (rewrite (search_result transport _ _ _ st Hb), Ht; exact He).
  assert (Hs : snd (_search transport project VNone st)
               = State (self st) eng' (log st ++ [search_request st body]))
    by (rewrite (search_state transport _ _ _ st Hb), Ht; reflexivity).
  split.
  - unfold query. rewrite (load_of_failed_search transport _ _ _ _ Hr), Hs. reflexivity.
  - rewrite (load_benchmarks_of_failed_search transport _ _ _ Hr), Hs. reflexivity.
Qed.

Lemma query_and_load_benchmarks_propagate_engine_failure_witness :
  let body :=
    VDict [("size", VInt 1000);
           ("sort", VList [VDict [("datetime", VDict [("order", VStr "desc")])]]);
           ("query",
            VDict [("bool",
                    VDict [("filter",
                            VDict [("term", VDict [("commit_info.project", VStr "p")])])])])] in
  let st' := State (self RejectingEngine.st0) tt
                   (log RejectingEngine.st0 ++ [search_request RejectingEngine.st0 body]) in
  query Samples.unreachable (VStr "p") RejectingEngine.st0 = (Raise Samples.refused, st') /\
  load_benchmarks Samples.unreachable (VStr "p") RejectingEngine.st0
  = (Broke [] Samples.refused, st').
Proof.
  apply (query_and_load_benchmarks_propagate_engine_failure unit unit Samples.unreachable
           (VStr "p") _ RejectingEngine.st0 (Unreachable Samples.refused) tt);
    reflexivity.
Defined.

(** X4.  [save] returns when the engine answers the index call with a 2xx
    status and raises the client's exception otherwise; unlike the
    creation of the index it ignores no status, 400 included. *)
Theorem save_succeeds_on_2xx_only :
  forall (Engine Logger : Type) (transport : value -> api_call -> Engine -> reply * Engine)
         (document document_id : value) (st : state Engine Logger),
    fst (save transport document document_id st)
    = match reply_outcome
              (fst (transport (client_hosts (_elasticsearch (self st)))
                              (Index (_elasticsearch_index (self st))
                                     (_elasticsearch_doctype (self st))
                                     document document_id)
                              (engine st))) with
      | Ok _ => Ok tt
      | Raise e => Raise e
      end /\
    forall body, reply_outcome (Status 400 body) = Raise (Exn TransportError [VInt 400; body]).
Proof.
  intros. split; [|reflexivity].
  unfold save, bind, attr, ret. simpl.
  rewrite <- perform_result.
  destruct (perform transport _ _ [] st) as [[r|e] st1]; reflexivity.
Qed.

Lemma search_answer {Engine Logger : Type}
      (transport : value -> api_call -> Engine -> reply * Engine)
      (project id_prefix body : value) (st : state Engine Logger) rep eng' :
  search_body project id_prefix = Ok body ->
  transport (client_hosts (_elasticsearch (self st)))
            (Search (_elasticsearch_index (self st)) (_elasticsearch_doctype (self st)) body)
            (engine st) = (rep, eng') ->
  _search transport project id_prefix st
  = (reply_outcome rep, State (self st) eng' (log st ++ [search_request st body])).
Proof.
  intros Hb Ht.
  rewrite (surjective_pairing (_search transport project id_prefix st)).
  rewrite (search_result transport _ _ _ st Hb), (search_state transport _ _ _ st Hb), Ht.
  reflexivity.
Qed.

(** X5.  When the engine answers the search with a 2xx status and a body
    from which [r["hits"]["hits"]] cannot be read, [load] and
    [load_benchmarks] yield nothing and end with the exception of that
    subscript, and [query] raises it. *)
Theorem answer_without_hits_raises :
  forall (Engine Logger : Type) (transport : value -> api_call -> Engine -> reply * Engine)
         (project body r : value) (st : state Engine Logger)
         (rep : reply) (eng' : Engine) (e : exn),
    search_body project VNone = Ok body ->
    transport (client_hosts (_elasticsearch (self st)))
              (Search (_elasticsearch_index (self st)) (_elasticsearch_doctype (self st)) body)
              (engine st) = (rep, eng') ->
    reply_outcome rep = Ok r ->
    hits_of r = Raise e ->
    fst (load transport project VNone st) = Broke [] e /\
    fst (query transport project st) = Raise e /\
    fst (load_benchmarks transport project st) = Broke [] e.
Proof.
  intros Engine Logger transport project body r st rep eng' e Hb Ht Hr He.
  pose proof (search_answer transport _ _ _ st _ _ Hb Ht) as Hs. rewrite Hr in Hs.
  unfold query.
  rewrite (load_of_answer transport _ _ _ _ _ Hs),
    (load_benchmarks_of_answer transport _ _ _ _ Hs), He.
  repeat split.
Qed.

Lemma answer_without_hits_raises_witness :
  fst (load Samples.hitless (VStr "p") VNone RejectingEngine.st0)
  = Broke [] (Exn KeyError [VStr "hits"]) /\
  fst (query Samples.hitless (VStr "p") RejectingEngine.st0)
  = Raise (Exn KeyError [VStr "hits"]) /\
  fst (load_benchmarks Samples.hitless (VStr "p") RejectingEngine.st0)
  = Broke [] (Exn KeyError [VStr "hits"]).
Proof.
  eapply (answer_without_hits_raises unit unit Samples.hitless (VStr "p") _
           (VDict [("took", VInt 1); ("timed_out", VBool false)])
           RejectingEngine.st0
           (Status 200 (VDict [("took", VInt 1); ("timed_out", VBool false)])) tt);
    reflexivity.
Defined.

(* ------------------------------------------------------------------ *)
(** ** Hits that lack fields *)

Lemma yield_benchmarks_until good bad rest e :
  forallb carries_benchmark good = true ->
  hit_benchmark bad = Raise e ->
  exists ys,
    Forall2 is_benchmark_of good ys /\
    yield_benchmarks (good ++ bad :: rest)%list = Broke ys e.
Proof.
  intros Hgood Hbad. induction good as [|hit good IH]; simpl.
  - exists []. split; [constructor|].
    unfold hit_benchmark in Hbad. rewrite Hbad. reflexivity.
  - simpl in Hgood. apply andb_true_iff in Hgood. destruct Hgood as [Hhit Hgood].
    destruct (IH Hgood) as (ys & Hall & Hys).
    destruct (carries_benchmark_inv hit Hhit) as (bm & Hbm & His).
    unfold hit_benchmark in Hbm. rewrite Hbm, Hys. simpl.
    exists (bm :: ys). split; [constructor; assumption|reflexivity].
Qed.

(** X6.  Iterating [load_benchmarks] yields the records of the hits that
    come before the first hit from which no benchmark record can be built,
    in order, and then ends with the exception that hit raises; the hits
    after it are not looked at. *)
Theorem load_benchmarks_stops_at_first_bad_hit :
  forall (Engine Logger : Type) (transport : value -> api_call -> Engine -> reply * Engine)
         (project : value) (st st' : state Engine Logger)
         (good rest : list value) (bad : value) (e : exn),
    search_hits transport project VNone st = (Ok (good ++ bad :: rest)%list, st') ->
    forallb carries_benchmark good = true ->
    hit_benchmark bad = Raise e ->
    exists ys,
      Forall2 is_benchmark_of good ys /\
      load_benchmarks transport project st = (Broke ys e, st').
Proof.
  intros Engine Logger transport project st st' good rest bad e Hs Hgood Hbad.
  destruct (search_hits_inv transport _ _ _ _ _ Hs) as (r & hv & Hr & Hh & Hit).
  destruct (yield_benchmarks_until good bad rest e Hgood Hbad) as (ys & Hall & Hys).
  exists ys. split; [exact Hall|].
  rewrite (load_benchmarks_of_answer transport _ _ _ _ Hr), Hh. simpl.
  rewrite Hit, Hys. reflexivity.
Qed.

Lemma load_benchmarks_stops_at_first_bad_hit_witness :
  exists ys,
    Forall2 is_benchmark_of
      [MemEngine.hit "abc123_0002_b"
         (MemEngine.document "abc123" MemEngine.jan1 "test_b" "3.1")] ys /\
    load_benchmarks MemEngine.transport (VStr "p") Samples.st_short
    = (Broke ys (Exn KeyError [VStr "params"]),
       snd (load_benchmarks MemEngine.transport (VStr "p") Samples.st_short)).
Proof.
  apply (load_benchmarks_stops_at_first_bad_hit MemEngine.t unit MemEngine.transport
           (VStr "p") Samples.st_short _ _
           [MemEngine.hit "abc123_0001_a"
              (MemEngine.document "abc123" MemEngine.jan2 "test_a" "3.0")]
           Samples.short_hit);
    reflexivity.
Defined.

Lemma group_loop_bad_hit hits h :
  In h hits ->
  (is_ok (hit_key h) && is_ok (hit_benchmark h))%bool = false ->
  forall acc, exists e, group_loop hits acc = Raise e.
Proof.
  intros Hin Hbad. induction hits as [|x hits IH]; [contradiction|].
  intros acc. simpl.
  destruct (group_hit acc x) as [acc'|e] eqn:Hx; simpl; [|eauto].
  destruct Hin as [->|Hin]; [|now apply IH].
  exfalso. unfold group_hit in Hx. unfold hit_key, hit_benchmark in Hbad.
  destruct (subscript h "_source") as [src|]; simpl in *; [|discriminate].
  destruct (commit_and_time src) as [k|]; simpl in *; [|discriminate].
  destruct (_benchmark_from_es_record src) as [b|]; simpl in *; discriminate.
Qed.

(** X7.  A single hit from which the key or the benchmark record cannot be
    computed, wherever it is among the hits, makes [load] yield nothing:
    the grouping raises, and [load] ends with that exception before its
    first pair. *)
Theorem load_yields_nothing_with_a_bad_hit :
  forall (Engine Logger : Type) (transport : value -> api_call -> Engine -> reply * Engine)
         (project id_prefix : value) (st st' : state Engine Logger)
         (hits : list value) (h : value),
    search_hits transport project id_prefix st = (Ok hits, st') ->
    In h hits ->
    (is_ok (hit_key h) && is_ok (hit_benchmark h))%bool = false ->
    exists e,
      _group_by_commit_and_time (VList hits) = Raise e /\
      load transport project id_prefix st = (Broke [] e, st').
Proof.
  intros Engine Logger transport project id_prefix st st' hits h Hs Hin Hbad.
  destruct (search_hits_inv transport _ _ _ _ _ Hs) as (r & hv & Hr & Hh & Hit).
  destruct (group_loop_bad_hit hits h Hin Hbad []) as [e He].
  exists e. split; [exact He|].
  rewrite (load_of_answer transport _ _ _ _ _ Hr), Hh. simpl.
  unfold _group_by_commit_and_time. rewrite Hit. simpl. rewrite He. reflexivity.
Qed.

Lemma load_yields_nothing_with_a_bad_hit_witness :
  exists e,
    _group_by_commit_and_time (VList Samples.db_short) = Raise e /\
    load MemEngine.transport (VStr "p") VNone Samples.st_short
    = (Broke [] e, snd (load MemEngine.transport (VStr "p") VNone Samples.st_short)).
Proof.
  apply (load_yields_nothing_with_a_bad_hit MemEngine.t unit MemEngine.transport
           (VStr "p") VNone Samples.st_short _ Samples.db_short Samples.short_hit).
  - reflexivity.
  - simpl. right. left. reflexivity.
  - reflexivity.
Defined.

(* ------------------------------------------------------------------ *)
(** ** One more hit under a key that has a run *)

Lemma keyed_inv h :
  (is_ok (hit_key h) && is_ok (hit_benchmark h))%bool = true ->
  exists src,
    subscript h "_source" = Ok src /\
    commit_and_time src = Ok (key_of h) /\
    _benchmark_from_es_record src = Ok (benchmark_of h).
Proof.
  unfold key_of, benchmark_of, hit_key, hit_benchmark.
  destruct (subscript h "_source") as [src|] eqn:Hsrc; simpl; [|discriminate].
  destruct (commit_and_time src) as [k|] eqn:Hk; simpl; [|discriminate].
  destruct (_benchmark_from_es_record src) as [b|] eqn:Hb; simpl; [|discriminate].
  intros _. exists src. auto.
Qed.

Lemma run_benchmarks_setitem info l :
  run_benchmarks (VDict (setitem info "benchmarks" (VList l))) = l.
Proof.
  unfold run_benchmarks. simpl. rewrite getitem_setitem_same. reflexivity.
Qed.

Lemma group_hit_existing l h :
  Forall (fun x => well_formed x = true) l ->
  (is_ok (hit_key h) && is_ok (hit_benchmark h))%bool = true ->
  In (key_of h) (map key_of l) ->
  group_hit (groups l) h
  = Ok (map (fun k => (k, run_of k (l ++ [h]))) (distinct (map key_of l))).
Proof.
  intros Hl Hh Hin.
  destruct (keyed_inv h Hh) as (src & Hsrc & Hk & Hb).
  assert (Hhas : has_key (key_of h) h = true) by (unfold has_key; apply String.eqb_refl).
  unfold group_hit. rewrite Hsrc; simpl. rewrite Hk; simpl. rewrite Hb; simpl.
  unfold contains, append_benchmark. simpl subscript.
  unfold groups. rewrite getitem_tabulate.
  destruct (in_dec string_dec (key_of h) (distinct (map key_of l))) as [Hd|Hd];
    [|rewrite distinct_In in Hd; contradiction].
  destruct (run_of_first (key_of h) l Hl Hin) as (h0 & info0 & Hf & _ & _ & Hinfo0 & Hrun).
  rewrite Hrun. simpl. rewrite getitem_setitem_same. simpl.
  rewrite setitem_setitem_same, setitem_tabulate; auto using distinct_NoDup.
  f_equal. apply map_ext_in. intros x Hx. f_equal.
  unfold run_of. rewrite first_hit_snoc, benchmarks_for_snoc.
  destruct (String.eqb_spec x (key_of h)) as [->|Hne].
  - rewrite Hf, Hinfo0, Hhas. reflexivity.
  - assert (has_key x h = false) as ->.
    { unfold has_key. destruct (String.eqb_spec (key_of h) x); congruence. }
    rewrite app_nil_r. destruct (first_hit x l); reflexivity.
Qed.

(** X8.  A hit whose key has a run already is merged into it even when the
    hit has no [machine_info] or [version]: after well-formed hits, one
    more hit that gives a key and a benchmark record leaves the keys and
    their order as they were, leaves the run information of every run as
    it was, and adds its benchmark record at the end of the run with its
    key and nowhere else. *)
Theorem merged_hit_needs_no_run_info :
  forall (l : list value) (h : value),
    forallb well_formed l = true ->
    (is_ok (hit_key h) && is_ok (hit_benchmark h))%bool = true ->
    In (key_of h) (map key_of l) ->
    exists g' g,
      _group_by_commit_and_time (VList l) = Ok g' /\
      _group_by_commit_and_time (VList (l ++ [h])) = Ok g /\
      map fst g = map fst g' /\
      forall k run, In (k, run) g ->
        exists run',
          In (k, run') g' /\
          (forall x, In x run_keys -> subscript run x = subscript run' x) /\
          run_benchmarks run
          = (run_benchmarks run' ++ (if has_key k h then [benchmark_of h] else []))%list.
Proof.
  intros l h Hwf Hh Hin.
  assert (Hl : Forall (fun x => well_formed x = true) l)
    by (apply Forall_forall; now apply forallb_forall).
  exists (groups l), (map (fun k => (k, run_of k (l ++ [h]))) (distinct (map key_of l))).
  split; [apply (group_loop_groups l Hl)|]. split.
  - unfold _group_by_commit_and_time. simpl.
    rewrite group_loop_snoc, (group_loop_groups l Hl). simpl.
    now apply group_hit_existing.
  - split; [unfold groups; now rewrite !map_map|].
    intros k run Hrun. apply in_map_iff in Hrun.
    destruct Hrun as (k' & Heq & Hk). inversion Heq; subst. clear Heq.
    exists (run_of k l). split; [unfold groups; apply in_map_iff; eauto|].
    rewrite distinct_In in Hk.
    destruct (run_of_first k l Hl Hk) as (h0 & info0 & Hf & _ & _ & Hinfo0 & Hrun).
    assert (Hrun' : run_of k (l ++ [h])
                    = VDict (setitem info0 "benchmarks"
                               (VList (benchmarks_for k l
                                       ++ (if has_key k h then [benchmark_of h] else []))))).
    { unfold run_of. rewrite first_hit_snoc, Hf, Hinfo0, benchmarks_for_snoc. reflexivity. }
    rewrite Hrun, Hrun', !run_benchmarks_setitem. split; [|reflexivity].
    intros x Hx. simpl.
    rewrite !getitem_setitem_other; [reflexivity| |];
      simpl in Hx; intuition (subst; discriminate).
Qed.

Lemma merged_hit_needs_no_run_info_witness :
  exists g' g,
    _group_by_commit_and_time (VList MemEngine.db3) = Ok g' /\
    _group_by_commit_and_time (VList (MemEngine.db3 ++ [Samples.bare_hit])) = Ok g /\
    map fst g = map fst g' /\
    forall k run, In (k, run) g ->
      exists run',
        In (k, run') g' /\
        (forall x, In x run_keys -> subscript run x = subscript run' x) /\
        run_benchmarks run
        = (run_benchmarks run'
           ++ (if has_key k Samples.bare_hit then [benchmark_of Samples.bare_hit] else []))%list.
Proof.
  apply (merged_hit_needs_no_run_info MemEngine.db3 Samples.bare_hit).
  - reflexivity.
  - reflexivity.
  - simpl. left. reflexivity.
Defined.

(** The bare hit alone, under a key that has no run yet, is refused for
    its missing run information. *)
Example bare_hit_alone_is_refused :
  well_formed Samples.bare_hit = false /\
  _group_by_commit_and_time (VList [Samples.bare_hit])
  = Raise (Exn KeyError [VStr "machine_info"]).
Proof. split; reflexivity. Qed.

(* ------------------------------------------------------------------ *)
(** ** No benchmark is lost or repeated *)

Lemma flat_map_perm {A B} (f : A -> list B) l l' :
  Permutation l l' -> Permutation (flat_map f l) (flat_map f l').
Proof.
  induction 1 as [|x l l' _ IH|x y l|l l' l'' _ IH1 _ IH2]; simpl.
  - constructor.
  - now apply Permutation_app_head.
  - rewrite !app_assoc. apply Permutation_app_tail, Permutation_app_comm.
  - eapply Permutation_trans; eauto.
Qed.

Lemma flat_map_agree {A B} (f g : A -> list B) l :
  (forall a, In a l -> f a = g a) -> flat_map f l = flat_map g l.
Proof.
  induction l as [|a l IH]; simpl; intros H; [reflexivity|].
  rewrite H by now left. rewrite IH; [reflexivity|]. intros b Hb. apply H. now right.
Qed.

Lemma filter_by_key_cons ks x l :
  NoDup ks -> In (key_of x) ks ->
  Permutation (flat_map (fun k => filter (has_key k) (x :: l)) ks)
              (x :: flat_map (fun k => filter (has_key k) l) ks).
Proof.
  induction ks as [|k0 ks IH]; simpl; [tauto|].
  intros Hnd Hin. inversion Hnd as [|? ? Hk0 Hnd']; subst.
  unfold has_key at 1. destruct (String.eqb_spec (key_of x) k0) as [E|E].
  - simpl. constructor. apply Permutation_app_head.
    rewrite (flat_map_agree (fun k => filter (has_key k) (x :: l))
                            (fun k => filter (has_key k) l)); [reflexivity|].
    intros k Hk. simpl. unfold has_key at 1.
    destruct (String.eqb_spec (key_of x) k); [congruence|reflexivity].
  - destruct Hin as [Hin|Hin]; [congruence|].
    rewrite (IH Hnd' Hin). apply Permutation_sym, Permutation_middle.
Qed.

Lemma filter_by_key_all ks l :
  NoDup ks -> (forall h, In h l -> In (key_of h) ks) ->
  Permutation (flat_map (fun k => filter (has_key k) l) ks) l.
Proof.
  intros Hnd. induction l as [|x l IH]; intros Hcov.
  - simpl. clear. induction ks; simpl; auto.
  - rewrite filter_by_key_cons by (auto; apply Hcov; now left).
    constructor. apply IH. intros h Hh. apply Hcov. now right.
Qed.

Lemma flat_map_map_out {A B C} (f : B -> C) (g : A -> list B) l :
  flat_map (fun a => map f (g a)) l = map f (flat_map g l).
Proof.
  induction l as [|a l IH]; simpl; [reflexivity|].
  now rewrite map_app, IH.
Qed.

Lemma groups_benchmarks hits :
  Forall (fun x => well_formed x = true) hits ->
  Permutation (flat_map (fun y => run_benchmarks (snd y)) (groups hits))
              (map benchmark_of hits).
Proof.
  intros Hwf. unfold groups. rewrite flat_map_concat_map, map_map, <- flat_map_concat_map.
  rewrite (flat_map_agree _ (fun k => benchmarks_for k hits)).
  - unfold benchmarks_for. rewrite flat_map_map_out.
    apply Permutation_map, filter_by_key_all; [apply distinct_NoDup|].
    intros h Hh. rewrite distinct_In. now apply in_map.
  - intros k Hk. simpl. rewrite distinct_In in Hk.
    destruct (run_of_first k hits Hwf Hk) as (h0 & info0 & _ & _ & _ & _ & ->).
    apply run_benchmarks_setitem.
Qed.

(** X9.  On well-formed hits the benchmark lists of the runs that [load]
    yields, taken together, are the benchmark records of the hits: every
    hit contributes its record to exactly one run, and no record is lost
    or repeated. *)
Theorem load_keeps_every_benchmark_once :
  forall (Engine Logger : Type) (transport : value -> api_call -> Engine -> reply * Engine)
         (project id_prefix : value) (st st' : state Engine Logger) (hits : list value),
    search_hits transport project id_prefix st = (Ok hits, st') ->
    forallb well_formed hits = true ->
    Permutation
      (flat_map (fun y => run_benchmarks (snd y))
                (yielded (fst (load transport project id_prefix st))))
      (map benchmark_of hits).
Proof.
  intros Engine Logger transport project id_prefix st st' hits Hs Hwf.
  destruct (load_runs transport _ _ _ _ _ Hs Hwf) as (ys & Hload & Hperm & _).
  rewrite Hload. simpl.
  rewrite (flat_map_perm _ _ _ Hperm).
  apply groups_benchmarks, Forall_forall. now apply forallb_forall.
Qed.

Lemma load_keeps_every_benchmark_once_witness :
  Permutation
    (flat_map (fun y => run_benchmarks (snd y))
              (yielded (fst (load MemEngine.transport (VStr "p") VNone MemEngine.st3))))
    (map benchmark_of MemEngine.db3).
Proof.
  apply (load_keeps_every_benchmark_once MemEngine.t unit MemEngine.transport
           (VStr "p") VNone MemEngine.st3
           (snd (load MemEngine.transport (VStr "p") VNone MemEngine.st3)));
    reflexivity.
Defined.

(* ------------------------------------------------------------------ *)
(** ** Runs with equal timestamps *)

Module StableFacts.
Import Sorting.
Section Stable.
Context {A K : Type}.
Variable ltb : K -> K -> bool.
Variable key : A -> result K.
Hypothesis le_trans : forall a b c, key_le ltb a b -> key_le ltb b c -> key_le ltb a c.

Lemma insert_level t (x : K * A) l :
  filter (fun p => level ltb t (fst p)) (insert ltb x l)
  = filter (fun p => level ltb t (fst p)) (x :: l).
Proof.
  induction l as [|y l IH]; [reflexivity|].
  cbn [insert]. destruct (ltb (fst y) (fst x)) eqn:E; [|reflexivity].
  cbn [filter] in *. rewrite IH.
  destruct (level ltb t (fst x)) eqn:Hx; [|reflexivity].
  destruct (level ltb t (fst y)) eqn:Hy; [|reflexivity].
  exfalso. unfold level in Hx, Hy.
  apply andb_true_iff in Hx, Hy. destruct Hx as [Hx _], Hy as [_ Hy].
  apply negb_true_iff in Hx, Hy.
  assert (H : key_le ltb (fst x) (fst y)) by (apply (le_trans _ t); assumption).
  unfold key_le in H. congruence.
Qed.

Lemma sort_level t (l : list (K * A)) :
  filter (fun p => level ltb t (fst p)) (sort_decorated ltb l)
  = filter (fun p => level ltb t (fst p)) l.
Proof.
  induction l as [|x l IH]; [reflexivity|].
  cbn [sort_decorated fold_right]. rewrite insert_level.
  cbn [filter]. fold (sort_decorated ltb l). now rewrite IH.
Qed.

(** The sort keeps the items of one level in the order they had. *)
Lemma list_sort_stable t l ys :
  list_sort ltb key l = Ok ys ->
  filter (fun y => match key y with Ok k => level ltb t k | Raise _ => false end) ys
  = filter (fun y => match key y with Ok k => level ltb t k | Raise _ => false end) l.
Proof.
  unfold list_sort. destruct (decorate key l) as [kl|] eqn:Hd; simpl; [|discriminate].
  intros H. inversion H; subst; clear H.
  destruct (SortingFacts.decorate_spec key _ _ Hd) as [Hm Hf].
  rewrite <- Hm, !filter_map_swap. f_equal.
  assert (Hin : forall p, In p (sort_decorated ltb kl) -> In p kl)
    by (intros p; apply Permutation_in, SortingFacts.sort_perm).
  rewrite Forall_forall in Hf.
  rewrite (filter_ext_in _ (fun p => level ltb t (fst p)) (sort_decorated ltb kl)).
  - rewrite sort_level. apply filter_ext_in. intros p Hp. now rewrite (Hf p Hp).
  - intros p Hp. now rewrite (Hf p (Hin p Hp)).
Qed.
End Stable.
End StableFacts.

(** X10.  On well-formed hits, the runs that [load] yields for one
    timestamp are in the order in which their keys first appear among the
    hits: the sort by time is stable and the grouping dict keeps the keys
    in order of insertion. *)
Theorem load_keeps_first_appearance_order_among_equal_times :
  forall (Engine Logger : Type) (transport : value -> api_call -> Engine -> reply * Engine)
         (project id_prefix : value) (st st' : state Engine Logger) (hits : list value)
         (t : Strptime.datetime),
    search_hits transport project id_prefix st = (Ok hits, st') ->
    forallb well_formed hits = true ->
    map fst (filter (time_is t) (yielded (fst (load transport project id_prefix st))))
    = filter (fun k => time_is t (k, run_of k hits)) (distinct (map key_of hits)).
Proof.
  intros Engine Logger transport project id_prefix st st' hits t Hs Hwf.
  assert (Hall : Forall (fun x => well_formed x = true) hits)
    by (apply Forall_forall; now apply forallb_forall).
  destruct (search_hits_inv transport _ _ _ _ _ Hs) as (r & hv & Hr & Hh & Hit).
  assert (Hg : _group_by_commit_and_time hv = Ok (groups hits)).
  { unfold _group_by_commit_and_time. rewrite Hit. simpl. now apply group_loop_groups. }
  rewrite (load_of_groups transport _ _ _ _ _ _ _ Hr Hh Hg).
  destruct (load_runs transport _ _ _ _ _ Hs Hwf) as (ys & Hload & _).
  rewrite (load_of_groups transport _ _ _ _ _ _ _ Hr Hh Hg) in Hload.
  destruct (Sorting.list_sort Strptime.dt_ltb sort_key (groups hits)) as [ys'|] eqn:Hsort;
    [|discriminate].
  simpl.
  pose proof (StableFacts.list_sort_stable Strptime.dt_ltb sort_key dt_le_trans t _ _ Hsort)
    as Hst.
  unfold time_is. unfold Sorting.level in Hst. rewrite Hst.
  unfold groups. rewrite filter_map_swap, map_map. simpl. apply map_id.
Qed.

Lemma load_keeps_first_appearance_order_among_equal_times_witness :
  map fst (filter (time_is (Strptime.Datetime 2020 1 2 0 0 0 0))
                  (yielded (fst (load MemEngine.transport (VStr "p") VNone Samples.st_tie))))
  = filter (fun k => time_is (Strptime.Datetime 2020 1 2 0 0 0 0)
                             (k, run_of k Samples.db_tie))
           (distinct (map key_of Samples.db_tie)).
Proof.
  apply (load_keeps_first_appearance_order_among_equal_times MemEngine.t unit
           MemEngine.transport (VStr "p") VNone Samples.st_tie
           (snd (load MemEngine.transport (VStr "p") VNone Samples.st_tie)));
    reflexivity.
Defined.

(** The later-stored commit of the tie comes second, after the earlier
    run and before the commit stored before it. *)
Example tie_keeps_engine_order :
  fst (query MemEngine.transport (VStr "p") Samples.st_tie)
  = Ok ["ccc_2020-01-01T00:00:00.000000"; "bbb_2020-01-02T00:00:00.000000";
        "aaa_2020-01-02T00:00:00.000000"].
Proof. reflexivity. Qed.

(* ------------------------------------------------------------------ *)
(** ** Keys *)

Lemma no_underscore_app a b : no_underscore (a ++ String "_" b) = false.
Proof.
  unfold no_underscore, has_char.
  induction a as [|c a IH]; [reflexivity|].
  cbn [append list_ascii_of_string existsb].
  destruct (Ascii.eqb "_"%char c); [reflexivity|exact IH].
Qed.

Lemma underscore_split a b c d :
  no_underscore b = true -> no_underscore d = true ->
  a ++ "_" ++ b = c ++ "_" ++ d -> a = c /\ b = d.
Proof.
  intros Hb Hd. revert c. induction a as [|x a IH]; intros [|y c]; simpl; intros H.
  - inversion H. auto.
  - inversion H; subst. rewrite no_underscore_app in Hb. discriminate.
  - inversion H; subst. rewrite no_underscore_app in Hd. discriminate.
  - inversion H; subst. destruct (IH c H2) as [-> ->]. auto.
Qed.

Lemma commit_and_time_of_strs src i d :
  path src ["commit_info"; "id"] = Some (VStr i) ->
  path src ["datetime"] = Some (VStr d) ->
  commit_and_time src = Ok (i ++ "_" ++ d).
Proof.
  unfold commit_and_time. destruct src as [| | | | | | |sd]; simpl; try discriminate.
  destruct (getitem sd "commit_info") as [[| | | | | | |cd]|]; simpl; try discriminate.
  destruct (getitem cd "id") as [iv|]; simpl; [|discriminate].
  intros Hi. inversion Hi; subst.
  destruct (getitem sd "datetime") as [dv|]; simpl; [|discriminate].
  intros Hd. inversion Hd; subst. reflexivity.
Qed.

(** X11.  Two documents whose commit ids and datetimes are strings, the
    datetimes without an underscore, get the same key only when they have
    the same commit id and the same datetime string; so among such
    documents a run never mixes two commits or two timestamps. *)
Theorem same_key_same_commit_and_time :
  forall (source1 source2 : value) (i1 d1 i2 d2 : string),
    path source1 ["commit_info"; "id"] = Some (VStr i1) ->
    path source1 ["datetime"] = Some (VStr d1) ->
    path source2 ["commit_info"; "id"] = Some (VStr i2) ->
    path source2 ["datetime"] = Some (VStr d2) ->
    no_underscore d1 = true ->
    no_underscore d2 = true ->
    commit_and_time source1 = commit_and_time source2 ->
    i1 = i2 /\ d1 = d2.
Proof.
  intros s1 s2 i1 d1 i2 d2 Hi1 Hd1 Hi2 Hd2 Hn1 Hn2 Heq.
  rewrite (commit_and_time_of_strs _ _ _ Hi1 Hd1),
    (commit_and_time_of_strs _ _ _ Hi2 Hd2) in Heq.
  inversion Heq as [H]. now apply underscore_split.
Qed.

Lemma same_key_same_commit_and_time_witness :
  "abc123" = "abc123" /\ MemEngine.jan1 = MemEngine.jan1.
Proof.
  apply (same_key_same_commit_and_time
           (MemEngine.document "abc123" MemEngine.jan1 "test_a" "3.0")
           (MemEngine.document "abc123" MemEngine.jan1 "test_b" "3.1"));
    reflexivity.
Defined.

(** With an underscore in the datetime, two different commits can share a
    key. *)
Example keys_collide_on_underscore :
  commit_and_time (VDict [("commit_info", VDict [("id", VStr "a_b")]); ("datetime", VStr "c")])
  = commit_and_time (VDict [("commit_info", VDict [("id", VStr "a")]); ("datetime", VStr "b_c")]).
Proof. reflexivity. Qed.

(** X12.  On well-formed hits [query] returns every key of the hits once:
    no key twice, every hit's key present, no other key. *)
Theorem query_lists_each_key_once :
  forall (Engine Logger : Type) (transport : value -> api_call -> Engine -> reply * Engine)
         (project : value) (st st' : state Engine Logger) (hits : list value),
    search_hits transport project VNone st = (Ok hits, st') ->
    forallb well_formed hits = true ->
    exists ks,
      query transport project st = (Ok ks, st') /\
      NoDup ks /\
      (forall k, In k ks <-> In k (map key_of hits)).
Proof.
  intros Engine Logger transport project st st' hits Hs Hwf.
  destruct (load_runs transport _ _ _ _ _ Hs Hwf) as (ys & Hload & Hperm & _).
  exists (map fst ys). unfold query. rewrite Hload. split; [reflexivity|].
  assert (Hfst : map fst (groups hits) = distinct (map key_of hits)).
  { unfold groups. rewrite map_map. simpl. apply map_id. }
  assert (Hp : Permutation (map fst ys) (distinct (map key_of hits)))
    by (rewrite <- Hfst; now apply Permutation_map).
  split.
  - eapply Permutation_NoDup; [apply Permutation_sym, Hp|apply distinct_NoDup].
  - intros k. rewrite <- (distinct_In (map key_of hits)). split; intros H.
    + eapply Permutation_in; [exact Hp|exact H].
    + eapply Permutation_in; [apply Permutation_sym, Hp|exact H].
Qed.

Lemma query_lists_each_key_once_witness :
  exists ks,
    query MemEngine.transport (VStr "p") MemEngine.st3
    = (Ok ks, snd (query MemEngine.transport (VStr "p") MemEngine.st3)) /\
    NoDup ks /\
    (forall k, In k ks <-> In k (map key_of MemEngine.db3)).
Proof.
  apply (query_lists_each_key_once MemEngine.t unit MemEngine.transport
           (VStr "p") MemEngine.st3); reflexivity.
Defined.

(** X13.  On well-formed hits the key that [load] yields with a run is the
    key of the run record itself: [commit_and_time] applied to the run
    gives the yielded key. *)
Theorem yielded_key_is_key_of_run :
  forall (Engine Logger : Type) (transport : value -> api_call -> Engine -> reply * Engine)
         (project id_prefix : value) (st st' : state Engine Logger) (hits : list value)
         (k : string) (run : value),
    search_hits transport project id_prefix st = (Ok hits, st') ->
    forallb well_formed hits = true ->
    In (k, run) (yielded (fst (load transport project id_prefix st))) ->
    commit_and_time run = Ok k.
Proof.
  intros Engine Logger transport project id_prefix st st' hits k run Hs Hwf Hin.
  destruct (load_runs transport _ _ _ _ _ Hs Hwf) as (ys & Hload & Hperm & _).
  rewrite Hload in Hin. simpl in Hin.
  assert (Hall : Forall (fun x => well_formed x = true) hits)
    by (apply Forall_forall; now apply forallb_forall).
  apply (Permutation_in _ Hperm) in Hin. unfold groups in Hin.
  apply in_map_iff in Hin. destruct Hin as (k' & Heq & Hk). inversion Heq; subst.
  rewrite distinct_In in Hk.
  destruct (run_of_fields k hits Hall Hk)
    as (h0 & src & a & b & c & d & t & Hf & Hsrc & Ha & Hb & Hc & Hd & _ & ->).
  destruct (first_hit_some k hits Hk) as (h0' & Hf' & _ & Hkey).
  rewrite Hf in Hf'. inversion Hf'; subst h0'.
  unfold key_of, hit_key in Hkey. rewrite Hsrc in Hkey. simpl in Hkey.
  destruct (commit_and_time src) as [k0|] eqn:Hk0.
  - subst k0. unfold commit_and_time in *. rewrite Hb, Hc in Hk0. exact Hk0.
  - exfalso. rewrite Forall_forall in Hall.
    destruct (first_hit_some k hits Hk) as (h1 & Hf1 & Hin1 & _).
    rewrite Hf in Hf1. inversion Hf1; subst h1.
    destruct (well_formed_inv h0 (Hall _ Hin1))
      as (src' & k1 & _ & _ & _ & Hsrc' & Hk1 & _).
    rewrite Hsrc in Hsrc'. inversion Hsrc'; subst. congruence.
Qed.

Lemma yielded_key_is_key_of_run_witness :
  commit_and_time (snd MemEngine.first_run) = Ok (fst MemEngine.first_run).
Proof.
  apply (yielded_key_is_key_of_run MemEngine.t unit MemEngine.transport
           (VStr "p") VNone MemEngine.st3
           (snd (load MemEngine.transport (VStr "p") VNone MemEngine.st3))
           MemEngine.db3).
  - reflexivity.
  - reflexivity.
  - simpl. left. reflexivity.
Defined.

(* ------------------------------------------------------------------ *)
(** ** A project without hits *)

(** X14.  When the search finds no hit, [load] and [load_benchmarks] yield
    nothing and end normally, and [query] returns the empty list. *)
Theorem no_hits_nothing_yielded :
  forall (Engine Logger : Type) (transport : value -> api_call -> Engine -> reply * Engine)
         (project : value) (st st' : state Engine Logger),
    search_hits transport project VNone st = (Ok [], st') ->
    load transport project VNone st = (Done [], st') /\
    query transport project st = (Ok [], st') /\
    load_benchmarks transport project st = (Done [], st').
Proof.
  intros Engine Logger transport project st st' Hs.
  destruct (search_hits_inv transport _ _ _ _ _ Hs) as (r & hv & Hr & Hh & Hit).
  assert (Hl : load transport project VNone st = (Done [], st')).
  { rewrite (load_of_answer transport _ _ _ _ _ Hr), Hh. simpl.
    unfold _group_by_commit_and_time. rewrite Hit. reflexivity. }
  split; [exact Hl|]. split.
  - unfold query. rewrite Hl. reflexivity.
  - rewrite (load_benchmarks_of_answer transport _ _ _ _ Hr), Hh. simpl.
    rewrite Hit. reflexivity.
Qed.

Lemma no_hits_nothing_yielded_witness :
  let st' := snd (load MemEngine.transport (VStr "another project") VNone MemEngine.st3) in
  load MemEngine.transport (VStr "another project") VNone MemEngine.st3 = (Done [], st') /\
  query MemEngine.transport (VStr "another project") MemEngine.st3 = (Ok [], st') /\
  load_benchmarks MemEngine.transport (VStr "another project") MemEngine.st3 = (Done [], st').
Proof.
  apply (no_hits_nothing_yielded MemEngine.t unit MemEngine.transport
           (VStr "another project") MemEngine.st3).
  reflexivity.
Defined.

(* ------------------------------------------------------------------ *)
(** ** The constructor and what it configures *)

(** X15.  When [import elasticsearch] raises an exception whose class is
    neither [ImportError] nor derived from it, the constructor lets that
    exception through as it is, without the install hint; no object is
    returned and no request is sent. *)
Theorem init_lets_other_import_failures_through :
  forall (Engine Logger : Type) (transport : value -> api_call -> Engine -> reply * Engine)
         (exc : exn) (hosts index doc_type machine_id : value) (lg : Logger)
         (eng : Engine) (log0 : list request),
    is_import_error (exn_cls exc) = false ->
    __init__ transport (Raise exc) hosts index doc_type lg machine_id eng log0
    = (Raise exc, eng, log0).
Proof.
  intros. unfold __init__. rewrite H. reflexivity.
Qed.

Lemma init_lets_other_import_failures_through_witness :
  __init__ MemEngine.transport
           (Raise (Exn (Subclass "SyntaxError" Exception) [VStr "invalid syntax"]))
           (VList [VStr "localhost:9200"]) (VStr "benchmark") (VStr "benchmark") tt VNone
           MemEngine.db3 []
  = (Raise (Exn (Subclass "SyntaxError" Exception) [VStr "invalid syntax"]), MemEngine.db3, []).
Proof.
  apply (init_lets_other_import_failures_through MemEngine.t unit MemEngine.transport
           (Exn (Subclass "SyntaxError" Exception) [VStr "invalid syntax"])).
  reflexivity.
Defined.

(** Classes derived from [ImportError] are caught with it. *)
Example import_error_subclasses_get_the_hint :
  map (fun c => fst (fst (__init__ MemEngine.transport (Raise (Exn c [VStr "no module"]))
                                   (VStr "h") (VStr "i") (VStr "d") tt VNone [] [])))
      [Subclass "ModuleNotFoundError" ImportError;
       Subclass "ZipImportError" ImportError;
       Subclass "Missing" (Subclass "ModuleNotFoundError" ImportError)]
  = repeat (Raise (Exn ImportError
                       [VTuple [VStr "no module"];
                        VStr "Please install elasticsearch or pytest-benchmark[elasticsearch]"]))
           3.
Proof. reflexivity. Qed.

Lemma init_state {Engine Logger : Type}
      (transport : value -> api_call -> Engine -> reply * Engine)
      (hosts index doc_type machine_id : value) (lg : Logger)
      (eng : Engine) (log0 : list request) obj eng1 log1 :
  __init__ transport (Ok tt) hosts index doc_type lg machine_id eng log0
  = (Ok obj, eng1, log1) ->
  obj = Storage hosts index doc_type (Elasticsearch hosts) machine_id lg (VDict []) /\
  eng1 = snd (transport hosts (IndicesCreate index mapping) eng) /\
  log1 = (log0 ++ [Request (IndicesCreate index mapping) [400%Z]])%list.
Proof.
  unfold __init__.
  match goal with
  | |- context [_create_index transport ?s] =>
      pose proof (create_index_state transport s) as Hs;
      destruct (_create_index transport s) as [[u|e] st1]
  end; simpl in *; intros H; inversion H; subst.
  repeat split; reflexivity.
Qed.

(** X16.  What the constructor is given is what the operations use: on an
    object that the constructor has returned, [save] sends its index call
    and [load] its search to the hosts, the index and the doc-type of the
    constructor call, right after the one request of the construction,
    the creation of that index with [ignore=400]. *)
Theorem constructed_store_uses_its_configuration :
  forall (Engine Logger : Type) (transport : value -> api_call -> Engine -> reply * Engine)
         (hosts index doc_type machine_id : value) (lg : Logger)
         (eng eng1 : Engine) (log0 log1 : list request) (obj : storage Logger)
         (document document_id project id_prefix body : value),
    __init__ transport (Ok tt) hosts index doc_type lg machine_id eng log0
    = (Ok obj, eng1, log1) ->
    search_body project id_prefix = Ok body ->
    let created := Request (IndicesCreate index mapping) [400%Z] in
    let st := State obj eng1 log1 in
    log (snd (save transport document document_id st))
    = (log0 ++ [created; Request (Index index doc_type document document_id) []])%list /\
    engine (snd (save transport document document_id st))
    = snd (transport hosts (Index index doc_type document document_id)
                     (snd (transport hosts (IndicesCreate index mapping) eng))) /\
    log (snd (load transport project id_prefix st))
    = (log0 ++ [created; Request (Search index doc_type body) []])%list /\
    engine (snd (load transport project id_prefix st))
    = snd (transport hosts (Search index doc_type body)
                     (snd (transport hosts (IndicesCreate index mapping) eng))).
Proof.
  intros Engine Logger transport hosts index doc_type machine_id lg eng eng1 log0 log1 obj
         document document_id project id_prefix body Hinit Hb created st.
  destruct (init_state transport _ _ _ _ _ _ _ _ _ _ Hinit) as (-> & -> & ->).
  subst st created.
  rewrite save_state, load_state, (search_state transport _ _ _ _ Hb). simpl.
  rewrite <- !app_assoc. simpl. repeat split.
Qed.

Lemma constructed_store_uses_its_configuration_witness :
  let hosts := VList [VStr "localhost:9200"] in
  let created := Request (IndicesCreate (VStr "idx") mapping) [400%Z] in
  let doc := MemEngine.document "abc123" MemEngine.jan1 "test_a" "3.0" in
  let body :=
    VDict [("size", VInt 1000);
           ("sort", VList [VDict [("datetime", VDict [("order", VStr "desc")])]]);
           ("query",
            VDict [("bool",
                    VDict [("filter",
                            VDict [("term", VDict [("commit_info.project", VStr "p")])])])])] in
  let st := State (Storage hosts (VStr "idx") (VStr "doc") (Elasticsearch hosts) VNone tt
                           (VDict []))
                  (@nil value) [created] in
  log (snd (save MemEngine.transport doc (VStr "abc123_0001") st))
  = ([] ++ [created; Request (Index (VStr "idx") (VStr "doc") doc (VStr "abc123_0001")) []])%list /\
  engine (snd (save MemEngine.transport doc (VStr "abc123_0001") st))
  = snd (MemEngine.transport hosts (Index (VStr "idx") (VStr "doc") doc (VStr "abc123_0001"))
           (snd (MemEngine.transport hosts (IndicesCreate (VStr "idx") mapping) []))) /\
  log (snd (load MemEngine.transport (VStr "p") VNone st))
  = ([] ++ [created; Request (Search (VStr "idx") (VStr "doc") body) []])%list /\
  engine (snd (load MemEngine.transport (VStr "p") VNone st))
  = snd (MemEngine.transport hosts (Search (VStr "idx") (VStr "doc") body)
           (snd (MemEngine.transport hosts (IndicesCreate (VStr "idx") mapping) []))).
Proof.
  apply (constructed_store_uses_its_configuration (list value) unit MemEngine.transport
           (VList [VStr "localhost:9200"]) (VStr "idx") (VStr "doc") VNone tt
           [] [] [] [Request (IndicesCreate (VStr "idx") mapping) [400%Z]]);
    reflexivity.
Defined.

(** X17.  [str()] of a constructed store and its [location] are the same
    text, the [str()] of the hosts the constructor was given. *)
Theorem location_is_str_of_hosts :
  forall (Engine Logger : Type) (transport : value -> api_call -> Engine -> reply * Engine)
         (hosts index doc_type machine_id : value) (lg : Logger)
         (eng eng1 : Engine) (log0 log1 : list request) (obj : storage Logger),
    __init__ transport (Ok tt) hosts index doc_type lg machine_id eng log0
    = (Ok obj, eng1, log1) ->
    location obj = py_str hosts /\
    __str__ obj = location obj.
Proof.
  intros Engine Logger transport hosts index doc_type machine_id lg eng eng1 log0 log1 obj
         Hinit.
  destruct (init_state transport _ _ _ _ _ _ _ _ _ _ Hinit) as (-> & _ & _).
  split; reflexivity.
Qed.

Lemma location_is_str_of_hosts_witness :
  let obj := Storage (VList [VStr "localhost:9200"; VStr "es2:9200"]) (VStr "idx") (VStr "doc")
                     (Elasticsearch (VList [VStr "localhost:9200"; VStr "es2:9200"]))
                     VNone tt (VDict []) in
  location obj = py_str (VList [VStr "localhost:9200"; VStr "es2:9200"]) /\
  __str__ obj = location obj.
Proof.
  apply (location_is_str_of_hosts (list value) unit MemEngine.transport
           (VList [VStr "localhost:9200"; VStr "es2:9200"]) (VStr "idx") (VStr "doc") VNone tt
           [] [] [] [Request (IndicesCreate (VStr "idx") mapping) [400%Z]]).
  reflexivity.
Defined.

Example location_of_two_hosts :
  location (Storage (VList [VStr "localhost:9200"; VStr "es2:9200"]) (VStr "idx") (VStr "doc")
                    (Elasticsearch (VList [VStr "localhost:9200"; VStr "es2:9200"]))
                    VNone tt (VDict []))
  = "['localhost:9200', 'es2:9200']".
Proof. reflexivity. Qed.
